(** * OAuth 2.0 authorization and revocation handlers of the MCP Python SDK

    A shallow embedding of
    - [src/mcp/shared/auth.py] (client metadata and its validators),
    - [src/mcp/server/auth/handlers/authorize.py] (the authorization
      endpoint and its error reporting closure),
    - [src/mcp/server/auth/handlers/revoke.py] (the revocation endpoint),
    followed by the properties of the handlers.

    Python values are modelled as follows.  [str | None] is [option string];
    an exception is a value of [Exception] carried by [Result]; the
    [nonlocal] variables of the authorization handler are a record threaded
    through a state-and-exception monad, so that an assignment made before
    an exception is raised is still visible to the [except] clause that
    catches it.  The collaborators that live outside the three files
    (pydantic's URL parser, [construct_redirect_uri],
    [stringify_pydantic_error], the provider, the client authenticator)
    are parameters.  Every awaited collaborator (the directory lookup,
    the authorization decision, the client authenticator, the revocation
    hook) returns or raises. *)

From Stdlib Require Import String Ascii List Bool Arith Lia.
Import ListNotations.
Open Scope string_scope.
Set Implicit Arguments.

(** ** Python preliminaries *)

(** The [type] entries of pydantic's error details that the fields of the
    models below can produce. *)
Inductive ErrorType : Type :=
| missing
| string_type
| literal_error
| url_parsing
| url_type.

(** One entry of [ValidationError.errors()]: [loc] is the one-element
    location tuple [(field,)]. *)
Record ErrorDetails : Type := mkErrorDetails {
  loc : string;
  type : ErrorType
}.

Inductive Exception : Type :=
| ValidationError (errors : list ErrorDetails)
| InvalidRequestError (message : string)
| InvalidScopeError (message : string)
| InvalidRedirectUriError (message : string)
| OtherException (what : string).

(** The outcome of a call: a value, or a raised exception. *)
Inductive Result (A : Type) : Type :=
| Return (a : A)
| Raise (e : Exception).
Arguments Return {A} a.
Arguments Raise {A} e.

(** [s.split(sep)] for a one-character separator: every occurrence of the
    separator cuts, empty pieces are kept, and the empty string splits into
    one empty piece. *)
Fixpoint split (sep : ascii) (s : string) : list string :=
  match s with
  | EmptyString => [EmptyString]
  | String c rest =>
      if Ascii.eqb c sep then EmptyString :: split sep rest
      else match split sep rest with
           | [] => [String c EmptyString]
           | piece :: pieces => String c piece :: pieces
           end
  end.

Definition space : ascii := " "%char.

(** [x in xs] on a list of strings. *)
Definition mem (x : string) (xs : list string) : bool :=
  existsb (String.eqb x) xs.

(** The first element of [xs] that is not in [allowed]: where the loop
    [for scope in requested_scopes: if scope not in allowed_scopes: raise]
    stops. *)
Fixpoint first_not_in (allowed xs : list string) : option string :=
  match xs with
  | [] => None
  | x :: rest => if mem x allowed then first_not_in allowed rest else Some x
  end.

(** A validated URL, kept as the text pydantic normalises it to; two URLs
    are equal when their texts are. *)
Definition AnyHttpUrl : Type := string.

(** ** [mcp/shared/auth.py] *)

Module OAuthClientInformationFull.

(** [OAuthClientMetadata] extended by [OAuthClientInformationFull]; the
    descriptive fields that no code reads are left out. *)
Record t : Type := mk {
  redirect_uris : list AnyHttpUrl;
  token_endpoint_auth_method : string;
  grant_types : list string;
  response_types : list string;
  scope : option string;
  client_id : string;
  client_secret : option string
}.

Definition allowed_scopes (self : t) : list string :=
  match scope self with
  | None => []
  | Some registered => split space registered
  end.

(** [OAuthClientMetadata.validate_scope] *)
Definition validate_scope (self : t) (requested_scope : option string)
  : Result (option (list string)) :=
  match requested_scope with
  | None => Return None
  | Some requested =>
      let requested_scopes := split space requested in
      match first_not_in (allowed_scopes self) requested_scopes with
      | Some scope =>
          Raise (InvalidScopeError
                   ("Client was not registered with scope " ++ scope))
      | None => Return (Some requested_scopes)
      end
  end.

(** [OAuthClientMetadata.validate_redirect_uri] *)
Definition validate_redirect_uri (self : t) (redirect_uri : option AnyHttpUrl)
  : Result AnyHttpUrl :=
  match redirect_uri with
  | Some uri =>
      if mem uri (redirect_uris self) then Return uri
      else Raise (InvalidRedirectUriError
                    ("Redirect URI '" ++ uri ++ "' not registered for client"))
  | None =>
      match redirect_uris self with
      | [only] => Return only
      | _ => Raise (InvalidRedirectUriError
                      "redirect_uri must be specified when client has multiple registered URIs")
      end
  end.

End OAuthClientInformationFull.

Definition Client : Type := OAuthClientInformationFull.t.

(** ** [mcp/server/auth/handlers/authorize.py] *)

(** *** Request parameters

    [request.query_params] and the result of [request.form()] are
    Starlette multi-dicts: a sequence of key/value items in which [get]
    and [in] see, for a key given more than once, its last item.  A query
    value is always a string; a form value may also be an uploaded file. *)
Inductive FormValue : Type :=
| Str (s : string)
| UploadFile (filename : string).

Definition MultiDict : Type := list (string * FormValue).

Fixpoint get (key : string) (d : MultiDict) : option FormValue :=
  match d with
  | [] => None
  | (k, v) :: rest =>
      match get key rest with
      | Some later => Some later
      | None => if String.eqb k key then Some v else None
      end
  end.

(** [key in params] *)
Definition contains (key : string) (d : MultiDict) : bool :=
  match get key d with
  | Some _ => true
  | None => false
  end.

Definition best_effort_extract_string (key : string) (params : option MultiDict)
  : option string :=
  match params with
  | None => None
  | Some d =>
      match get key d with
      | Some (Str value) => Some value
      | _ => None
      end
  end.

(** The functions the handler imports from outside the three files. *)
Record Imports : Type := mkImports {
  (** pydantic's [AnyHttpUrl] validation of a string: the normalised URL,
      or nothing when the string is not a well-formed http(s) URL *)
  parse_url : string -> option AnyHttpUrl;
  (** [mcp.server.auth.provider.construct_redirect_uri(base, **params)] *)
  construct_redirect_uri : string -> list (string * string) -> string;
  (** [mcp.server.auth.errors.stringify_pydantic_error] *)
  stringify_pydantic_error : list ErrorDetails -> string;
  (** whether Starlette can store the text as a header value, that is,
      whether [value.encode("latin-1")] succeeds: a text stands for a
      Python string, and not every Python string has a latin-1 form *)
  header_encodable : string -> bool
}.

(** *** [AuthorizationRequest] *)

Module AuthorizationRequest.

Record t : Type := mk {
  client_id : string;
  redirect_uri : option AnyHttpUrl;
  response_type : string;
  code_challenge : string;
  code_challenge_method : string;
  state : option string;
  scope : option string
}.

(** Field validators, one per annotation used by the class.  Each reads
    the raw item of its field and yields the typed value or the error
    entry pydantic records for it. *)

(** [str = Field(...)] *)
Definition required_str (field : string) (obj : MultiDict)
  : ErrorDetails + string :=
  match get field obj with
  | None => inl (mkErrorDetails field missing)
  | Some (Str s) => inr s
  | Some (UploadFile _) => inl (mkErrorDetails field string_type)
  end.

(** [Optional[str] = Field(None)] *)
Definition optional_str (field : string) (obj : MultiDict)
  : ErrorDetails + option string :=
  match get field obj with
  | None => inr None
  | Some (Str s) => inr (Some s)
  | Some (UploadFile _) => inl (mkErrorDetails field string_type)
  end.

(** [Literal[lit] = Field(...)] when [default] is [None],
    [Literal[lit] = Field(lit)] when it is [Some lit] *)
Definition literal (field lit : string) (default : option string)
    (obj : MultiDict) : ErrorDetails + string :=
  match get field obj with
  | None =>
      match default with
      | Some d => inr d
      | None => inl (mkErrorDetails field missing)
      end
  | Some (Str s) =>
      if String.eqb s lit then inr s
      else inl (mkErrorDetails field literal_error)
  | Some (UploadFile _) => inl (mkErrorDetails field literal_error)
  end.

(** [AnyHttpUrl | None = Field(None)] *)
Definition optional_url (lib : Imports) (field : string) (obj : MultiDict)
  : ErrorDetails + option AnyHttpUrl :=
  match get field obj with
  | None => inr None
  | Some (Str s) =>
      match parse_url lib s with
      | Some url => inr (Some url)
      | None => inl (mkErrorDetails field url_parsing)
      end
  | Some (UploadFile _) => inl (mkErrorDetails field url_type)
  end.

Definition errors_of {A : Type} (r : ErrorDetails + A) : list ErrorDetails :=
  match r with
  | inl e => [e]
  | inr _ => []
  end.

(** [AuthorizationRequest.model_validate(params)]: every field is
    validated, and the errors of all fields are reported together, in
    the order of the fields. *)
Definition model_validate (lib : Imports) (obj : MultiDict) : Result t :=
  let f_client_id := required_str "client_id" obj in
  let f_redirect_uri := optional_url lib "redirect_uri" obj in
  let f_response_type := literal "response_type" "code" None obj in
  let f_code_challenge := required_str "code_challenge" obj in
  let f_method := literal "code_challenge_method" "S256" (Some "S256") obj in
  let f_state := optional_str "state" obj in
  let f_scope := optional_str "scope" obj in
  match f_client_id, f_redirect_uri, f_response_type, f_code_challenge,
        f_method, f_state, f_scope with
  | inr a, inr b, inr c, inr d, inr e, inr f, inr g => Return (mk a b c d e f g)
  | _, _, _, _, _, _, _ =>
      Raise (ValidationError
               (errors_of f_client_id ++ errors_of f_redirect_uri
                ++ errors_of f_response_type ++ errors_of f_code_challenge
                ++ errors_of f_method ++ errors_of f_state
                ++ errors_of f_scope))
  end.

End AuthorizationRequest.

(** [validate_scope] of authorize.py *)
Definition validate_scope (requested_scope : option string) (client : Client)
  : Result (option (list string)) :=
  match requested_scope with
  | None => Return None
  | Some requested =>
      let requested_scopes := split space requested in
      match first_not_in (OAuthClientInformationFull.allowed_scopes client)
                         requested_scopes with
      | Some scope =>
          Raise (InvalidRequestError
                   ("Client was not registered with scope " ++ scope))
      | None => Return (Some requested_scopes)
      end
  end.

(** [validate_redirect_uri] of authorize.py *)
Definition validate_redirect_uri (redirect_uri : option AnyHttpUrl)
    (client : Client) : Result AnyHttpUrl :=
  match redirect_uri with
  | Some uri =>
      if mem uri (OAuthClientInformationFull.redirect_uris client)
      then Return uri
      else Raise (InvalidRequestError
                    ("Redirect URI '" ++ uri ++ "' not registered for client"))
  | None =>
      match OAuthClientInformationFull.redirect_uris client with
      | [only] => Return only
      | _ => Raise (InvalidRequestError
                      "redirect_uri must be specified when client has multiple registered URIs")
      end
  end.

Inductive ErrorCode : Type :=
| invalid_request
| unauthorized_client
| access_denied
| unsupported_response_type
| invalid_scope
| server_error
| temporarily_unavailable.

Definition ErrorCode_str (e : ErrorCode) : string :=
  match e with
  | invalid_request => "invalid_request"
  | unauthorized_client => "unauthorized_client"
  | access_denied => "access_denied"
  | unsupported_response_type => "unsupported_response_type"
  | invalid_scope => "invalid_scope"
  | server_error => "server_error"
  | temporarily_unavailable => "temporarily_unavailable"
  end.

Module ErrorResponse.

Record t : Type := mk {
  error : ErrorCode;
  error_description : string;
  error_uri : option string;
  state : option string
}.

Definition entry (key : string) (value : option string)
  : list (string * string) :=
  match value with
  | Some v => [(key, v)]
  | None => []
  end.

(** [model_dump(exclude_none=True)]: the fields that are not [None], in
    declaration order. *)
Definition model_dump (self : t) : list (string * string) :=
  [("error", ErrorCode_str (error self));
   ("error_description", error_description self)]
  ++ entry "error_uri" (error_uri self)
  ++ entry "state" (state self).

End ErrorResponse.

(** [AnyHttpUrlModel.model_validate(value).root] *)
Definition AnyHttpUrlModel_model_validate (lib : Imports) (value : option string)
  : Result AnyHttpUrl :=
  match value with
  | None => Raise (ValidationError [mkErrorDetails EmptyString url_type])
  | Some s =>
      match parse_url lib s with
      | Some url => Return url
      | None => Raise (ValidationError [mkErrorDetails EmptyString url_parsing])
      end
  end.

(** *** Responses *)

Definition Headers : Type := list (string * string).

(** The responses the handlers construct, by constructor call.  A
    [RedirectResponse] carries its target in [url]; [EmptyResponse] is the
    plain [Response(status_code=..., headers=...)] with no body. *)
Inductive Response : Type :=
| RedirectResponse (url : string) (status_code : nat) (headers : Headers)
| PydanticJSONResponse (status_code : nat) (content : ErrorResponse.t)
                       (headers : Headers)
| EmptyResponse (status_code : nat) (headers : Headers).

Definition no_store : Headers := [("Cache-Control", "no-store")].

(** *** The provider

    The two operations of [OAuthServerProvider] the authorization handler
    awaits.  [get_client] answers with the registration or with nothing,
    or raises; [authorize] answers with the next URI or raises. *)
Record AuthorizationParams : Type := mkAuthorizationParams {
  ap_state : option string;
  ap_scopes : option (list string);
  ap_code_challenge : string;
  ap_redirect_uri : AnyHttpUrl
}.

Record OAuthServerProvider : Type := mkProvider {
  get_client : string -> Result (option Client);
  authorize : Client -> AuthorizationParams -> Result string
}.

Record Request : Type := mkRequest {
  method : string;
  query_params : MultiDict;
  (** what [await request.form()] yields: the form items, or the
      exception raised while decoding the body *)
  form : Result MultiDict
}.

(** *** The handler's [nonlocal] variables *)

(** The values the variable [client] takes.  [Blank] is the empty string
    that [client_id and await ...get_client(client_id)] leaves behind when
    the raw [client_id] is empty: it is not [None], and it is falsy. *)
Inductive ClientSlot : Type :=
| Unset
| Blank
| Loaded (c : Client).

Record Locals : Type := mkLocals {
  state : option string;
  redirect_uri : option AnyHttpUrl;
  client : ClientSlot;
  params : option MultiDict
}.

Definition initial : Locals := mkLocals None None Unset None.

(** State-and-exception monad over [Locals]; the state survives a raise. *)
Definition M (A : Type) : Type := Locals -> Result A * Locals.

Definition ret {A : Type} (a : A) : M A := fun s => (Return a, s).

Definition raise {A : Type} (e : Exception) : M A := fun s => (Raise e, s).

Definition bind {A B : Type} (m : M A) (k : A -> M B) : M B :=
  fun s =>
    match m s with
    | (Return a, s') => k a s'
    | (Raise e, s') => (Raise e, s')
    end.

Definition lift {A : Type} (r : Result A) : M A := fun s => (r, s).

Definition read : M Locals := fun s => (Return s, s).

Definition assign_state (v : option string) : M unit :=
  fun s => (Return tt, mkLocals v (redirect_uri s) (client s) (params s)).

Definition assign_redirect_uri (v : option AnyHttpUrl) : M unit :=
  fun s => (Return tt, mkLocals (state s) v (client s) (params s)).

Definition assign_client (v : ClientSlot) : M unit :=
  fun s => (Return tt, mkLocals (state s) (redirect_uri s) v (params s)).

Definition assign_params (v : option MultiDict) : M unit :=
  fun s => (Return tt, mkLocals (state s) (redirect_uri s) (client s) v).

(** [try: body except <classes selected by catches>: handler] *)
Definition try_except {A : Type} (body : M A) (catches : Exception -> bool)
    (handler : Exception -> M A) : M A :=
  fun s =>
    match body s with
    | (Return a, s') => (Return a, s')
    | (Raise e, s') => if catches e then handler e s' else (Raise e, s')
    end.

Notation "x <- m ;; k" := (bind m (fun x => k))
  (at level 61, m at next level, right associativity).
Notation "m ;; k" := (bind m (fun _ => k))
  (at level 61, right associativity).

Definition slot_of_lookup (found : option Client) : ClientSlot :=
  match found with
  | Some c => Loaded c
  | None => Unset
  end.

(** [e['loc'] == ('response_type',) and e['type'] == 'literal_error'] *)
Definition is_response_type_literal_error (e : ErrorDetails) : bool :=
  String.eqb (loc e) "response_type"
  && match type e with literal_error => true | _ => false end.

(** The error code chosen by the loop over [validation_error.errors()]. *)
Definition classify (errors : list ErrorDetails) : ErrorCode :=
  if existsb is_response_type_literal_error errors
  then unsupported_response_type
  else invalid_request.

Section AuthorizationHandler.

Variable lib : Imports.
Variable provider : OAuthServerProvider.

(** Lines 123-126: the last-ditch attempt to load the client.  When the
    lookup raises, nothing is assigned. *)
Definition load_client (attempt_load_client : bool) : M unit :=
  locals <- read ;;
  match client locals, attempt_load_client with
  | Unset, true =>
      match best_effort_extract_string "client_id" (params locals) with
      | None => assign_client Unset
      | Some client_id =>
          if String.eqb client_id EmptyString then assign_client Blank
          else
            found <- lift (get_client provider client_id) ;;
            assign_client (slot_of_lookup found)
      end
  | _, _ => ret tt
  end.

(** Lines 127-136: the last-ditch effort to load the redirect URI.  The
    raw value is parsed before the [try] block is entered. *)
Definition load_redirect_uri : M unit :=
  locals <- read ;;
  match redirect_uri locals, client locals with
  | None, Loaded c =>
      let absent :=
        match params locals with
        | Some d => negb (contains "redirect_uri" d)
        | None => false
        end in
      raw_redirect_uri <-
        (if absent then ret None
         else
           url <- lift (AnyHttpUrlModel_model_validate lib
                          (best_effort_extract_string "redirect_uri"
                             (params locals))) ;;
           ret (Some url)) ;;
      try_except
        (uri <- lift (validate_redirect_uri raw_redirect_uri c) ;;
         assign_redirect_uri (Some uri))
        (fun e => match e with
                  | ValidationError _ | InvalidRequestError _ => true
                  | _ => false
                  end)
        (fun _ => ret tt)
  | _, _ => ret tt
  end.

(** Lines 137-139: the last-ditch effort to load the state. *)
Definition load_state : M unit :=
  locals <- read ;;
  match state locals with
  | None => assign_state (best_effort_extract_string "state" (params locals))
  | Some _ => ret tt
  end.

(** Lines 141-158: build the report and choose its channel. *)
Definition emit (error : ErrorCode) (error_description : string) : M Response :=
  locals <- read ;;
  let error_resp :=
    ErrorResponse.mk error error_description None (state locals) in
  match redirect_uri locals, client locals with
  | Some uri, Loaded _ =>
      ret (RedirectResponse
             (construct_redirect_uri lib uri (ErrorResponse.model_dump error_resp))
             302 no_store)
  | _, _ => ret (PydanticJSONResponse 400 error_resp no_store)
  end.

Definition error_response (error : ErrorCode) (error_description : string)
    (attempt_load_client : bool) : M Response :=
  load_client attempt_load_client ;;
  load_redirect_uri ;;
  load_state ;;
  emit error error_description.

(** The body of the outer [try] of [authorization_handler]. *)
Definition handler_body (request : Request) : M Response :=
  p <- lift (if String.eqb (method request) "GET"
             then Return (query_params request)
             else form request) ;;
  assign_params (Some p) ;;
  assign_state (best_effort_extract_string "state" (Some p)) ;;
  match AuthorizationRequest.model_validate lib p with
  | Raise (ValidationError errors) =>
      error_response (classify errors) (stringify_pydantic_error lib errors) true
  | Raise e => raise e
  | Return auth_request =>
      assign_state (AuthorizationRequest.state auth_request) ;;
      found <- lift (get_client provider
                       (AuthorizationRequest.client_id auth_request)) ;;
      assign_client (slot_of_lookup found) ;;
      match found with
      | None =>
          error_response invalid_request
            ("Client ID '" ++ AuthorizationRequest.client_id auth_request
             ++ "' not found")
            false
      | Some c =>
          match validate_redirect_uri
                  (AuthorizationRequest.redirect_uri auth_request) c with
          | Raise (InvalidRequestError message) =>
              error_response invalid_request message true
          | Raise e => raise e
          | Return uri =>
              assign_redirect_uri (Some uri) ;;
              match validate_scope (AuthorizationRequest.scope auth_request) c with
              | Raise (InvalidRequestError message) =>
                  error_response invalid_scope message true
              | Raise e => raise e
              | Return scopes =>
                  (* RedirectResponse(url=[empty], ...) whose location
                     header is then set to the provider's answer; the
                     assignment raises UnicodeEncodeError for an answer
                     that has no latin-1 form *)
                  locals <- read ;;
                  next <- lift (authorize provider c
                                  (mkAuthorizationParams
                                     (state locals) scopes
                                     (AuthorizationRequest.code_challenge auth_request)
                                     uri)) ;;
                  if header_encodable lib next
                  then ret (RedirectResponse next 302 no_store)
                  else raise (OtherException "UnicodeEncodeError")
              end
          end
      end
  end.

(** [authorization_handler]: the body, with the catch-all [except
    Exception] around it.  Whatever the catch-all's own call of
    [error_response] raises leaves the handler. *)
Definition authorization_handler_run (request : Request) : Result Response * Locals :=
  try_except (handler_body request) (fun _ => true)
    (fun _ => error_response server_error "An unexpected error occurred" true)
    initial.

Definition authorization_handler (request : Request) : Result Response :=
  fst (authorization_handler_run request).

End AuthorizationHandler.

(** *** [create_error_redirect]

    [urlparse], [urlunparse] and [urlencode] of [urllib.parse] are
    parameters; a parsed URL is the six-field named tuple. *)
Module ParseResult.

Record t : Type := mk {
  scheme : string;
  netloc : string;
  path : string;
  params : string;
  query : string;
  fragment : string
}.

(** [parsed._replace(query=new_query)] *)
Definition replace_query (parsed : t) (new_query : string) : t :=
  mk (scheme parsed) (netloc parsed) (path parsed) (params parsed) new_query
     (fragment parsed).

End ParseResult.

Record UrlLib : Type := mkUrlLib {
  urlparse : string -> ParseResult.t;
  urlunparse : ParseResult.t -> string;
  urlencode : list (string * string) -> string
}.

(** The [error] argument by the branch it takes: an [ErrorResponse], an
    [OAuthError] with its [error_code] and its [str], or anything else. *)
Inductive ErrorArgument : Type :=
| AnErrorResponse (error : ErrorResponse.t)
| AnOAuthError (error_code : string) (description : string)
| AnotherException.

(** The dictionary handed to [urlencode]. *)
Definition error_query_params (error : ErrorArgument) : list (string * string) :=
  match error with
  | AnErrorResponse e => ErrorResponse.model_dump e
  | AnOAuthError error_code description =>
      [("error", error_code); ("error_description", description)]
  | AnotherException =>
      [("error", "server_error");
       ("error_description", "An unknown error occurred")]
  end.

Definition create_error_redirect (url : UrlLib) (redirect_uri : string)
    (error : ErrorArgument) : string :=
  let parsed_uri := urlparse url redirect_uri in
  let new_query := urlencode url (error_query_params error) in
  let new_query :=
    if String.eqb (ParseResult.query parsed_uri) EmptyString then new_query
    else ParseResult.query parsed_uri ++ "&" ++ new_query in
  urlunparse url (ParseResult.replace_query parsed_uri new_query).

(** ** [mcp/server/auth/handlers/revoke.py] *)

Section RevocationHandler.

(** [RevocationRequest] joins two classes declared outside the three
    files; the handler only passes its instances on. *)
Variable RevocationRequest : Type.

(** [RevocationRequest.model_validate_json] *)
Variable model_validate_json : string -> Result RevocationRequest.

(** [str(e)] of a pydantic [ValidationError] *)
Variable str_of_errors : list ErrorDetails -> string.

(** The [ClientAuthenticator]: the authenticated client, or the
    authentication error it raises. *)
Variable client_authenticator : RevocationRequest -> Result Client.

(** What the provider keeps (its tokens). *)
Variable Store : Type.

(** [provider.revoke_token], when the provider has one: it returns
    nothing or raises, and may change the provider's store either way. *)
Variable revoke_token :
  option (Client -> RevocationRequest -> Store -> Result unit * Store).

(** The calls made to the collaborators, oldest first. *)
Inductive Call : Type :=
| Authenticate (request : RevocationRequest)
| Revoke (client : Client) (request : RevocationRequest).

Record World : Type := mkWorld {
  store : Store;
  calls : list Call
}.

Definition call_authenticator (request : RevocationRequest) (w : World)
  : Result Client * World :=
  (client_authenticator request,
   mkWorld (store w) (calls w ++ [Authenticate request])).

(** [if provider.revoke_token: await provider.revoke_token(...)] *)
Definition call_revoke_token (client : Client) (request : RevocationRequest)
    (w : World) : Result unit * World :=
  match revoke_token with
  | Some hook =>
      let (outcome, kept) := hook client request (store w) in
      (outcome, mkWorld kept (calls w ++ [Revoke client request]))
  | None => (Return tt, w)
  end.

Definition revocation_success : Response :=
  EmptyResponse 200 [("Cache-Control", "no-store"); ("Pragma", "no-cache")].

Definition revocation_handler (body : string) (w : World)
  : Result Response * World :=
  match model_validate_json body with
  | Raise (ValidationError e) =>
      (Raise (InvalidRequestError ("Invalid request body: " ++ str_of_errors e)), w)
  | Raise e => (Raise e, w)
  | Return revocation_request =>
      match call_authenticator revocation_request w with
      | (Raise e, w1) => (Raise e, w1)
      | (Return client_auth_result, w1) =>
          match call_revoke_token client_auth_result revocation_request w1 with
          | (Raise e, w2) => (Raise e, w2)
          | (Return _, w2) => (Return revocation_success, w2)
          end
      end
  end.

End RevocationHandler.

(** ** A concrete deployment

    One registered client, a URL parser that accepts the texts starting
    with an http(s) scheme, and a provider that sends every authorized
    request to its consent page.  Used to run the handlers. *)
Module Demo.

(** Texts read as UTF-8: a text has a latin-1 form when each of its
    characters is a single byte below 128 or a two-byte sequence led by
    194 or 195, the code points up to 255. *)
Fixpoint latin1 (s : string) : bool :=
  match s with
  | EmptyString => true
  | String c rest =>
      let n := nat_of_ascii c in
      if Nat.ltb n 128 then latin1 rest
      else if Nat.eqb n 194 || Nat.eqb n 195 then
             match rest with
             | EmptyString => false
             | String _ rest' => latin1 rest'
             end
           else false
  end.

Definition lib : Imports :=
  mkImports
    (fun s => if String.prefix "https://" s || String.prefix "http://" s
              then Some s else None)
    (fun base fields =>
       base ++ "?" ++ String.concat "&" (map (fun kv => fst kv ++ "=" ++ snd kv) fields))
    (fun errors => String.concat ", " (map loc errors))
    latin1.

Definition app : Client :=
  OAuthClientInformationFull.mk
    ["https://a.example/cb"] "client_secret_post" ["authorization_code"]
    ["code"] (Some "read write") "app" None.

(** A client registered without any scope and with two redirect URIs. *)
Definition bare : Client :=
  OAuthClientInformationFull.mk
    ["https://b.example/cb"; "https://b.example/alt"] "none"
    ["authorization_code"] ["code"] None "bare" None.

Definition provider : OAuthServerProvider :=
  mkProvider
    (fun id => if String.eqb id "app" then Return (Some app)
               else if String.eqb id "bare" then Return (Some bare)
               else Return None)
    (fun _ _ => Return "https://as.example/consent").


(** A provider whose answer ends with a character outside latin-1 (the
    three bytes 228, 184, 173 of one UTF-8 character). *)
Definition wide_answer : string :=
  "https://as.example/" ++
  String (ascii_of_nat 228) (String (ascii_of_nat 184)
    (String (ascii_of_nat 173) EmptyString)).

Definition wide_provider : OAuthServerProvider :=
  mkProvider (get_client provider) (fun _ _ => Return wide_answer).

Definition GET (items : MultiDict) : Request :=
  mkRequest "GET" items (Return []).

(** A request whose [redirect_uri] is present and is not a URL. *)
Definition malformed_redirect : Request :=
  GET [("client_id", Str "app"); ("redirect_uri", Str "not a url");
       ("response_type", Str "code"); ("code_challenge", Str "xyz");
       ("state", Str "s1")].

(** A form post whose [redirect_uri] item is an uploaded file. *)
Definition file_redirect : Request :=
  mkRequest "POST" []
    (Return [("client_id", Str "app"); ("redirect_uri", UploadFile "cb.txt");
             ("response_type", Str "code"); ("code_challenge", Str "xyz")]).

(** A request without [response_type]. *)
Definition no_response_type : Request :=
  GET [("client_id", Str "app"); ("code_challenge", Str "xyz");
       ("state", Str "s1")].

(** A request asking for a scope the client did not register. *)
Definition bad_scope : Request :=
  GET [("client_id", Str "app"); ("response_type", Str "code");
       ("code_challenge", Str "xyz"); ("state", Str "s1");
       ("scope", Str "read exec")].

Definition unknown_client : Request :=
  GET [("client_id", Str "nobody"); ("response_type", Str "code");
       ("redirect_uri", Str "https://a.example/cb");
       ("code_challenge", Str "xyz"); ("state", Str "s1")].

Definition two_uris_none_given : Request :=
  GET [("client_id", Str "bare"); ("response_type", Str "code");
       ("code_challenge", Str "xyz"); ("state", Str "s1")].

(** A request without [response_type] from a client nobody registered. *)
Definition no_response_type_unknown : Request :=
  GET [("client_id", Str "nobody"); ("code_challenge", Str "xyz")].

(** Revocation: the body is read as [client_id:client_secret:token]; the
    authenticator knows one secret; the store is the list of live tokens
    and the hook drops the presented one. *)
Record RevocationRequest : Type := mkRevocationRequest {
  token : string;
  auth_client_id : string;
  auth_client_secret : string
}.

Definition model_validate_json (body : string) : Result RevocationRequest :=
  match split ":"%char body with
  | [id; secret; tok] => Return (mkRevocationRequest tok id secret)
  | _ => Raise (ValidationError [mkErrorDetails "token" missing])
  end.

Definition client_authenticator (request : RevocationRequest) : Result Client :=
  if String.eqb (auth_client_id request) "app"
     && String.eqb (auth_client_secret request) "s3cret"
  then Return app
  else Raise (OtherException "invalid_client").

Definition revoke_token (client : Client) (request : RevocationRequest)
    (live : list string) : Result unit * list string :=
  (Return tt, filter (fun t => negb (String.eqb t (token request))) live).

(** A hook that refuses a token it does not hold. *)
Definition strict_revoke_token (client : Client) (request : RevocationRequest)
    (live : list string) : Result unit * list string :=
  if mem (token request) live
  then (Return tt, filter (fun t => negb (String.eqb t (token request))) live)
  else (Raise (OtherException "unknown token"), live).

Definition world : World RevocationRequest (list string) :=
  mkWorld ["t1"; "t2"] [].

(** The parsed form of [unknown_client]. *)
Definition unknown_client_fields : AuthorizationRequest.t :=
  AuthorizationRequest.mk "nobody" (Some "https://a.example/cb") "code" "xyz"
    "S256" (Some "s1") None.

Definition two_uris_fields : AuthorizationRequest.t :=
  AuthorizationRequest.mk "bare" None "code" "xyz" "S256" (Some "s1") None.

Definition bad_scope_fields : AuthorizationRequest.t :=
  AuthorizationRequest.mk "app" None "code" "xyz" "S256" (Some "s1")
    (Some "read exec").

Definition bad_scope_response : Response :=
  RedirectResponse
    "https://a.example/cb?error=invalid_scope&error_description=Client was not registered with scope exec&state=s1"
    302 [("Cache-Control", "no-store")].

(** A URL reader that knows only the path and the query: the text is cut
    at its first question mark. *)
Fixpoint cut_at_question (s : string) : string * string :=
  match s with
  | EmptyString => (EmptyString, EmptyString)
  | String c rest =>
      if Ascii.eqb c "?"%char then (EmptyString, rest)
      else let (before, after) := cut_at_question rest in
           (String c before, after)
  end.

Definition url : UrlLib :=
  mkUrlLib
    (fun s => let (p, q) := cut_at_question s in
              ParseResult.mk EmptyString EmptyString p EmptyString q EmptyString)
    (fun r => if String.eqb (ParseResult.query r) EmptyString
              then ParseResult.path r
              else ParseResult.path r ++ "?" ++ ParseResult.query r)
    (fun fields =>
       String.concat "&" (map (fun kv => fst kv ++ "=" ++ snd kv) fields)).

(** A request that passes every check. *)
Definition good : Request :=
  GET [("client_id", Str "app"); ("response_type", Str "code");
       ("code_challenge", Str "xyz"); ("state", Str "s1");
       ("scope", Str "write read")].

Definition good_fields : AuthorizationRequest.t :=
  AuthorizationRequest.mk "app" None "code" "xyz" "S256" (Some "s1")
    (Some "write read").

(** The same provider, whose authorization decision fails. *)
Definition failing_provider : OAuthServerProvider :=
  mkProvider (get_client provider)
    (fun _ _ => Raise (OtherException "storage unavailable")).

(** A form post whose body cannot be decoded. *)
Definition undecodable : Request :=
  mkRequest "POST" [("state", Str "s1")] (Raise (OtherException "bad multipart")).

End Demo.

(** * Properties of the authorization handler *)

Unset Implicit Arguments.

Section AuthorizationProperties.

Variable lib : Imports.
Variable provider : OAuthServerProvider.

(** ** Vocabulary of the statements *)

(** The parameter bag the handler works on: the query of a GET, the form
    of any other request, and nothing when the form cannot be decoded. *)
Definition decoded (request : Request) : option MultiDict :=
  if String.eqb (method request) "GET" then Some (query_params request)
  else match form request with
       | Return d => Some d
       | Raise _ => None
       end.

(** The report [error_response] hands back once recovery is over, as a
    function of the variables at that time. *)
Definition report (error : ErrorCode) (error_description : string)
    (s : Locals) : Response :=
  let error_resp := ErrorResponse.mk error error_description None (state s) in
  match redirect_uri s, client s with
  | Some uri, Loaded _ =>
      RedirectResponse
        (construct_redirect_uri lib uri (ErrorResponse.model_dump error_resp))
        302 no_store
  | _, _ => PydanticJSONResponse 400 error_resp no_store
  end.

(** [c] is the client the directory holds for the request's [client_id]. *)
Definition resolved (p : option MultiDict) (c : Client) : Prop :=
  exists id,
    best_effort_extract_string "client_id" p = Some id
    /\ get_client provider id = Return (Some c).

(** [c] is what the last-ditch lookup finds: the directory's client for
    the raw, non-empty [client_id]. *)
Definition recovered (p : option MultiDict) (c : Client) : Prop :=
  exists id,
    best_effort_extract_string "client_id" p = Some id
    /\ id <> EmptyString
    /\ get_client provider id = Return (Some c).

(** The directory raises [e] when asked for the raw, non-empty
    [client_id]. *)
Definition directory_fails (p : option MultiDict) (e : Exception) : Prop :=
  exists id,
    best_effort_extract_string "client_id" p = Some id
    /\ id <> EmptyString
    /\ get_client provider id = Raise e.

(** The raw [redirect_uri] cannot be turned into a URL: it is given and
    is not the text of one, or is not a string, or there are no
    parameters to read it from. *)
Definition unparsable_redirect (p : option MultiDict) : Prop :=
  match p with
  | None => True
  | Some d =>
      match get "redirect_uri" d with
      | Some (Str text) => parse_url lib text = None
      | Some (UploadFile _) => True
      | None => False
      end
  end.

(** [uri] came out of [validate_redirect_uri] for client [c]: checked
    against the candidate the request carries, or chosen because the
    request carries none. *)
Definition validated (p : option MultiDict) (c : Client) (uri : AnyHttpUrl)
  : Prop :=
  exists raw,
    validate_redirect_uri raw c = Return uri
    /\ match raw with
       | None => exists d, p = Some d /\ contains "redirect_uri" d = false
       | Some candidate =>
           exists text,
             best_effort_extract_string "redirect_uri" p = Some text
             /\ parse_url lib text = Some candidate
       end.

(** What the handler's variables satisfy at every point of its run. *)
Record consistent (s : Locals) : Prop := mkConsistent {
  client_resolved : forall c, client s = Loaded c -> resolved (params s) c;
  redirect_validated :
    forall uri, redirect_uri s = Some uri ->
                exists c, client s = Loaded c /\ validated (params s) c uri;
  state_copied :
    forall x, state s = Some x ->
              best_effort_extract_string "state" (params s) = Some x
}.

(** The request went through every check and [next] is the provider's
    answer. *)
Definition delegated (request : Request) (resp : Response) : Prop :=
  exists p req c uri scopes next,
    decoded request = Some p
    /\ AuthorizationRequest.model_validate lib p = Return req
    /\ get_client provider (AuthorizationRequest.client_id req) = Return (Some c)
    /\ validate_redirect_uri (AuthorizationRequest.redirect_uri req) c = Return uri
    /\ validate_scope (AuthorizationRequest.scope req) c = Return scopes
    /\ authorize provider c
         (mkAuthorizationParams (AuthorizationRequest.state req) scopes
            (AuthorizationRequest.code_challenge req) uri) = Return next
    /\ header_encodable lib next = true
    /\ resp = RedirectResponse next 302 no_store.

(** [response_type] is given and is not the literal [code]. *)
Definition response_type_unsupported (p : MultiDict) : bool :=
  match get "response_type" p with
  | None => false
  | Some (Str s) => negb (String.eqb s "code")
  | Some (UploadFile _) => true
  end.

(** The variables at three points of the body: [parsed p] once the
    parameters are stored and the raw state is saved; [looked_up p req
    slot] after a successful parse and the directory lookup; [verified p
    req c uri] after the redirect URI is validated. *)
Definition parsed (p : MultiDict) : Locals :=
  mkLocals (best_effort_extract_string "state" (Some p)) None Unset (Some p).

Definition looked_up (p : MultiDict) (req : AuthorizationRequest.t)
    (slot : ClientSlot) : Locals :=
  mkLocals (AuthorizationRequest.state req) None slot (Some p).

Definition verified (p : MultiDict) (req : AuthorizationRequest.t)
    (c : Client) (uri : AnyHttpUrl) : Locals :=
  mkLocals (AuthorizationRequest.state req) (Some uri) (Loaded c) (Some p).

(** What the [except Exception] clause makes of the body's outcome. *)
Definition caught (outcome : Result Response * Locals) : Result Response * Locals :=
  match outcome with
  | (Return resp, s) => (Return resp, s)
  | (Raise _, s) =>
      error_response lib provider server_error "An unexpected error occurred"
        true s
  end.


(** [resp] is the report of consistent variables that hold the request's
    parameters and state. *)
Definition reported (request : Request) (resp : Response) : Prop :=
  exists error description s,
    resp = report error description s
    /\ consistent s
    /\ params s = decoded request
    /\ state s = best_effort_extract_string "state" (decoded request).

(** The requests on which the recovery of the redirect URI raises: the
    last-ditch lookup finds a client and the raw [redirect_uri] is given
    and cannot be parsed. *)
Definition escapes (request : Request) : Prop :=
  unparsable_redirect (decoded request)
  /\ exists c, recovered (decoded request) c.


(** ** The validators *)

Lemma mem_In (x : string) (xs : list string) : mem x xs = true <-> In x xs.
Proof.
  unfold mem. rewrite existsb_exists. split.
  - intros [y [Hy Heq]]. apply String.eqb_eq in Heq. now subst.
  - intros H. exists x. split; [exact H | apply String.eqb_refl].
Qed.

Lemma split_not_nil (sep : ascii) (s : string) : split sep s <> [].
Proof.
  destruct s as [|c rest]; simpl; [discriminate|].
  destruct (Ascii.eqb c sep); [discriminate|].
  destruct (split sep rest); discriminate.
Qed.

Lemma first_not_in_Some (allowed xs : list string) (x : string) :
  first_not_in allowed xs = Some x -> In x xs /\ ~ In x allowed.
Proof.
  induction xs as [|y ys IH]; simpl; [discriminate|].
  destruct (mem y allowed) eqn:Hy.
  - intros H. destruct (IH H) as [Hin Hout]. auto.
  - intros H. injection H as <-. split; [now left|].
    intros Hin. apply mem_In in Hin. congruence.
Qed.

Lemma first_not_in_None (allowed xs : list string) :
  first_not_in allowed xs = None <-> (forall x, In x xs -> In x allowed).
Proof.
  induction xs as [|y ys IH]; simpl.
  - split; [intros _ x []|reflexivity].
  - destruct (mem y allowed) eqn:Hy.
    + rewrite IH. apply mem_In in Hy. split.
      * intros H x [<-|Hx]; auto.
      * intros H x Hx. apply H. now right.
    + split; [discriminate|].
      intros H. assert (In y allowed) as Hin by (apply H; now left).
      apply mem_In in Hin. congruence.
Qed.

Lemma validate_redirect_uri_member (raw : option AnyHttpUrl) (c : Client)
    (uri : AnyHttpUrl) :
  validate_redirect_uri raw c = Return uri ->
  In uri (OAuthClientInformationFull.redirect_uris c)
  /\ match raw with
     | Some candidate => candidate = uri
     | None => OAuthClientInformationFull.redirect_uris c = [uri]
     end.
Proof.
  unfold validate_redirect_uri. destruct raw as [candidate|].
  - destruct (mem candidate _) eqn:Hmem; [|discriminate].
    intros H. injection H as <-. apply mem_In in Hmem. auto.
  - destruct (OAuthClientInformationFull.redirect_uris c) as [|only [|]];
      try discriminate.
    intros H. injection H as <-. split; [now left | reflexivity].
Qed.

Lemma validate_redirect_uri_raises (raw : option AnyHttpUrl) (c : Client)
    (e : Exception) :
  validate_redirect_uri raw c = Raise e -> exists message, e = InvalidRequestError message.
Proof.
  unfold validate_redirect_uri. destruct raw as [candidate|].
  - destruct (mem candidate _); [discriminate|].
    intros H. injection H as <-. eauto.
  - destruct (OAuthClientInformationFull.redirect_uris c) as [|only [|]];
      intros H; try discriminate; injection H as <-; eauto.
Qed.

Lemma validate_scope_raises (requested : option string) (c : Client)
    (e : Exception) :
  validate_scope requested c = Raise e -> exists message, e = InvalidRequestError message.
Proof.
  unfold validate_scope. destruct requested as [r|]; [|discriminate].
  destruct (first_not_in _ _); [|discriminate].
  intros H. injection H as <-. eauto.
Qed.

(** ** Parsing *)

Lemma model_validate_cases (p : MultiDict) :
  let f_client_id := AuthorizationRequest.required_str "client_id" p in
  let f_redirect_uri := AuthorizationRequest.optional_url lib "redirect_uri" p in
  let f_response_type := AuthorizationRequest.literal "response_type" "code" None p in
  let f_code_challenge := AuthorizationRequest.required_str "code_challenge" p in
  let f_method :=
    AuthorizationRequest.literal "code_challenge_method" "S256" (Some "S256") p in
  let f_state := AuthorizationRequest.optional_str "state" p in
  let f_scope := AuthorizationRequest.optional_str "scope" p in
  (exists a b c d e f g,
      f_client_id = inr a /\ f_redirect_uri = inr b /\ f_response_type = inr c
      /\ f_code_challenge = inr d /\ f_method = inr e /\ f_state = inr f
      /\ f_scope = inr g
      /\ AuthorizationRequest.model_validate lib p
         = Return (AuthorizationRequest.mk a b c d e f g))
  \/ AuthorizationRequest.model_validate lib p
     = Raise (ValidationError
                (AuthorizationRequest.errors_of f_client_id
                 ++ AuthorizationRequest.errors_of f_redirect_uri
                 ++ AuthorizationRequest.errors_of f_response_type
                 ++ AuthorizationRequest.errors_of f_code_challenge
                 ++ AuthorizationRequest.errors_of f_method
                 ++ AuthorizationRequest.errors_of f_state
                 ++ AuthorizationRequest.errors_of f_scope)).
Proof.
  unfold AuthorizationRequest.model_validate.
  generalize (AuthorizationRequest.required_str "client_id" p).
  generalize (AuthorizationRequest.optional_url lib "redirect_uri" p).
  generalize (AuthorizationRequest.literal "response_type" "code" None p).
  generalize (AuthorizationRequest.required_str "code_challenge" p).
  generalize (AuthorizationRequest.literal "code_challenge_method" "S256"
                (Some "S256") p).
  generalize (AuthorizationRequest.optional_str "state" p).
  generalize (AuthorizationRequest.optional_str "scope" p).
  intros [e7|g] [e6|f] [e5|e] [e4|d] [e3|c] [e2|b] [e1|a]; cbv zeta;
    try (right; reflexivity).
  left. exists a, b, c, d, e, f, g. repeat split; reflexivity.
Qed.

Lemma required_str_inr (field : string) (p : MultiDict) (v : string) :
  AuthorizationRequest.required_str field p = inr v -> get field p = Some (Str v).
Proof.
  unfold AuthorizationRequest.required_str.
  destruct (get field p) as [[s|]|]; intros H; try discriminate.
  now injection H as <-.
Qed.

Lemma optional_str_inr (field : string) (p : MultiDict) (v : option string) :
  AuthorizationRequest.optional_str field p = inr v ->
  v = best_effort_extract_string field (Some p).
Proof.
  unfold AuthorizationRequest.optional_str, best_effort_extract_string.
  destruct (get field p) as [[s|]|]; intros H; try discriminate;
    now injection H as <-.
Qed.

Lemma optional_url_inr (field : string) (p : MultiDict) (v : option AnyHttpUrl) :
  AuthorizationRequest.optional_url lib field p = inr v ->
  match v with
  | None => get field p = None
  | Some candidate =>
      exists text, get field p = Some (Str text)
                   /\ parse_url lib text = Some candidate
  end.
Proof.
  unfold AuthorizationRequest.optional_url.
  destruct (get field p) as [[s|]|]; try discriminate.
  - destruct (parse_url lib s) as [url|] eqn:Hparse; intros H; try discriminate.
    injection H as <-. eauto.
  - intros H. now injection H as <-.
Qed.

Lemma model_validate_fields (p : MultiDict) (req : AuthorizationRequest.t) :
  AuthorizationRequest.model_validate lib p = Return req ->
  get "client_id" p = Some (Str (AuthorizationRequest.client_id req))
  /\ match AuthorizationRequest.redirect_uri req with
     | None => get "redirect_uri" p = None
     | Some candidate =>
         exists text, get "redirect_uri" p = Some (Str text)
                      /\ parse_url lib text = Some candidate
     end
  /\ AuthorizationRequest.state req = best_effort_extract_string "state" (Some p)
  /\ AuthorizationRequest.scope req = best_effort_extract_string "scope" (Some p).
Proof.
  intros Hok.
  destruct (model_validate_cases p)
    as [(a & b & c & d & e & f & g & Ha & Hb & _ & _ & _ & Hf & Hg & Heq) | Hraise];
    [|congruence].
  rewrite Heq in Hok. injection Hok as <-. simpl.
  repeat split.
  - now apply required_str_inr.
  - now apply optional_url_inr.
  - now apply optional_str_inr.
  - now apply optional_str_inr.
Qed.

(** Only the [response_type] field can contribute the entry the
    classification loop looks for. *)
Lemma no_literal_error_elsewhere (A : Type) (r : ErrorDetails + A)
    (field : string) :
  (forall e, r = inl e -> loc e = field) ->
  String.eqb field "response_type" = false ->
  existsb is_response_type_literal_error (AuthorizationRequest.errors_of r) = false.
Proof.
  intros Hloc Hfield. destruct r as [e|v]; simpl; [|reflexivity].
  unfold is_response_type_literal_error.
  rewrite (Hloc e eq_refl), Hfield. reflexivity.
Qed.

Lemma required_str_loc (field : string) (p : MultiDict) (e : ErrorDetails) :
  AuthorizationRequest.required_str field p = inl e -> loc e = field.
Proof.
  unfold AuthorizationRequest.required_str.
  destruct (get field p) as [[s|]|]; intros H; try discriminate;
    now injection H as <-.
Qed.

Lemma optional_str_loc (field : string) (p : MultiDict) (e : ErrorDetails) :
  AuthorizationRequest.optional_str field p = inl e -> loc e = field.
Proof.
  unfold AuthorizationRequest.optional_str.
  destruct (get field p) as [[s|]|]; intros H; try discriminate;
    now injection H as <-.
Qed.

Lemma optional_url_loc (field : string) (p : MultiDict) (e : ErrorDetails) :
  AuthorizationRequest.optional_url lib field p = inl e -> loc e = field.
Proof.
  unfold AuthorizationRequest.optional_url.
  destruct (get field p) as [[s|]|]; [destruct (parse_url lib s)| |];
    intros H; try discriminate; now injection H as <-.
Qed.

Lemma literal_loc (field lit : string) (default : option string)
    (p : MultiDict) (e : ErrorDetails) :
  AuthorizationRequest.literal field lit default p = inl e -> loc e = field.
Proof.
  unfold AuthorizationRequest.literal.
  destruct (get field p) as [[s|]|];
    [destruct (String.eqb s lit)| |destruct default];
    intros H; try discriminate; now injection H as <-.
Qed.

Lemma response_type_literal_error (p : MultiDict) :
  existsb is_response_type_literal_error
    (AuthorizationRequest.errors_of
       (AuthorizationRequest.literal "response_type" "code" None p))
  = response_type_unsupported p.
Proof.
  unfold AuthorizationRequest.literal, response_type_unsupported.
  destruct (get "response_type" p) as [[s|]|]; simpl; try reflexivity.
  destruct (String.eqb s "code"); reflexivity.
Qed.

Lemma model_validate_raises (p : MultiDict) (exn : Exception) :
  AuthorizationRequest.model_validate lib p = Raise exn ->
  exists errors,
    exn = ValidationError errors
    /\ classify errors = if response_type_unsupported p
                         then unsupported_response_type else invalid_request.
Proof.
  intros Hraise.
  destruct (model_validate_cases p)
    as [(a & b & c & d & e' & f & g & _ & _ & _ & _ & _ & _ & _ & Heq) | Heq];
    [congruence|].
  rewrite Heq in Hraise. injection Hraise as <-.
  eexists. split; [reflexivity|].
  unfold classify. rewrite !existsb_app.
  rewrite response_type_literal_error.
  rewrite (no_literal_error_elsewhere _ _ "client_id");
    [|apply required_str_loc|reflexivity].
  rewrite (no_literal_error_elsewhere _ _ "redirect_uri");
    [|apply optional_url_loc|reflexivity].
  rewrite (no_literal_error_elsewhere _ _ "code_challenge");
    [|apply required_str_loc|reflexivity].
  rewrite (no_literal_error_elsewhere _ _ "code_challenge_method");
    [|apply literal_loc|reflexivity].
  rewrite (no_literal_error_elsewhere _ _ "state");
    [|apply optional_str_loc|reflexivity].
  rewrite (no_literal_error_elsewhere _ _ "scope");
    [|apply optional_str_loc|reflexivity].
  simpl. rewrite !orb_false_r. reflexivity.
Qed.

(** ** The recovery steps of [error_response] *)

#[local] Arguments validate_redirect_uri : simpl never.
#[local] Arguments validate_scope : simpl never.
#[local] Arguments AuthorizationRequest.model_validate : simpl never.
#[local] Arguments error_response : simpl never.

Ltac run_step :=
  unfold bind, read, ret, raise, lift, try_except, assign_client,
    assign_redirect_uri, assign_state, assign_params; simpl.

Lemma load_client_run (attempt : bool) (s : Locals) :
  (exists slot,
      load_client provider attempt s
      = (Return tt, mkLocals (state s) (redirect_uri s) slot (params s))
      /\ (slot = client s
          \/ (client s = Unset /\ attempt = true
              /\ forall c, slot = Loaded c -> recovered (params s) c)))
  \/ (exists e,
         load_client provider attempt s = (Raise e, s)
         /\ client s = Unset /\ attempt = true
         /\ directory_fails (params s) e).
Proof.
  destruct s as [st ru cl p]. unfold load_client. run_step.
  destruct cl; try (left; eexists; split; [reflexivity|now left]).
  destruct attempt; [|left; eexists; split; [reflexivity|now left]].
  destruct (best_effort_extract_string "client_id" p) as [id|] eqn:Hid.
  - destruct (String.eqb id EmptyString) eqn:Hempty.
    + left. eexists. split; [reflexivity|]. right. repeat split. discriminate.
    + assert (id <> EmptyString) as Hne by (intros ->; discriminate).
      destruct (get_client provider id) as [found|e] eqn:Hc; simpl.
      * left. eexists. split; [reflexivity|]. right. repeat split.
        intros c Hslot. exists id. repeat split; auto.
        destruct found; simpl in Hslot; congruence.
      * right. exists e. repeat split. exists id. auto.
  - left. eexists. split; [reflexivity|]. now left.
Qed.

Lemma recovered_resolved (p : option MultiDict) (c : Client) :
  recovered p c -> resolved p c.
Proof. intros (id & Hid & _ & Hc). exists id. auto. Qed.

Lemma load_client_keeps (attempt : bool) (s : Locals) :
  client s <> Unset \/ attempt = false ->
  load_client provider attempt s = (Return tt, s).
Proof.
  destruct s as [st ru cl p]. unfold load_client. run_step.
  intros [Hset | ->]; destruct cl; try reflexivity; congruence.
Qed.

(** The outcomes of the redirect URI recovery: nothing changes, or a
    validated URI is stored, or the parse of the raw value raises with
    nothing changed. *)
Lemma load_redirect_uri_run (s : Locals) :
  load_redirect_uri lib s = (Return tt, s)
  \/ (exists c uri,
         redirect_uri s = None /\ client s = Loaded c
         /\ validated (params s) c uri
         /\ load_redirect_uri lib s
            = (Return tt, mkLocals (state s) (Some uri) (client s) (params s)))
  \/ (exists c errors,
         redirect_uri s = None /\ client s = Loaded c
         /\ unparsable_redirect (params s)
         /\ load_redirect_uri lib s = (Raise (ValidationError errors), s)).
Proof.
  destruct s as [st ru cl p]. unfold load_redirect_uri. run_step.
  destruct ru as [uri|]; [now left|].
  destruct cl as [| |c]; try (now left).
  destruct p as [d|]; simpl.
  - destruct (contains "redirect_uri" d) eqn:Hin; simpl.
    + unfold AnyHttpUrlModel_model_validate. unfold contains in Hin.
      destruct (get "redirect_uri" d) as [[text|]|] eqn:Hget;
        try discriminate;
        try (right; right; eauto 7; fail).
      destruct (parse_url lib text) as [url|] eqn:Hparse;
        [|right; right; eauto 7].
      destruct (validate_redirect_uri (Some url) c) as [uri|e] eqn:Hval.
      * right; left. exists c, uri. repeat split.
        exists (Some url). split; [exact Hval|].
        exists text. simpl. rewrite Hget. auto.
      * destruct (validate_redirect_uri_raises _ _ _ Hval) as [message ->].
        now left.
    + destruct (validate_redirect_uri None c) as [uri|e] eqn:Hval.
      * right; left. exists c, uri. repeat split.
        exists None. split; [exact Hval|]. exists d. split; [reflexivity|exact Hin].
      * destruct (validate_redirect_uri_raises _ _ _ Hval) as [message ->].
        now left.
  - right; right. eauto 7.
Qed.

Lemma load_redirect_uri_keeps (s : Locals) :
  redirect_uri s <> None \/ (forall c, client s <> Loaded c) ->
  load_redirect_uri lib s = (Return tt, s).
Proof.
  destruct s as [st ru cl p]. unfold load_redirect_uri. run_step.
  intros [Hset|Hnone]; destruct ru; try reflexivity; try congruence.
  destruct cl; try reflexivity. now elim (Hnone c).
Qed.

Lemma load_state_run (s : Locals) :
  load_state s
  = (Return tt,
     mkLocals (match state s with
               | Some x => Some x
               | None => best_effort_extract_string "state" (params s)
               end)
              (redirect_uri s) (client s) (params s)).
Proof.
  destruct s as [st ru cl p]. unfold load_state. run_step.
  destruct st; reflexivity.
Qed.

Lemma emit_run (error : ErrorCode) (description : string) (s : Locals) :
  emit lib error description s = (Return (report error description s), s).
Proof.
  destruct s as [st ru cl p]. unfold emit, report. run_step.
  destruct ru; [destruct cl|]; reflexivity.
Qed.

(** ** [error_response] as a whole *)

Lemma consistent_load_state (s : Locals) :
  consistent s ->
  consistent (mkLocals (match state s with
                        | Some x => Some x
                        | None => best_effort_extract_string "state" (params s)
                        end)
                       (redirect_uri s) (client s) (params s))
  /\ (match state s with
      | Some x => Some x
      | None => best_effort_extract_string "state" (params s)
      end) = best_effort_extract_string "state" (params s).
Proof.
  intros [Hc Hr Hs]. split.
  - constructor; simpl; auto.
    destruct (state s) as [x|] eqn:Hst; auto.
  - destruct (state s) as [x|] eqn:Hst; auto.
    symmetry. auto.
Qed.

(** Every run of [error_response] from consistent variables: either it
    returns the report of the variables it leaves, which are consistent,
    keep the parameters and carry the request's state; or the parse of
    the raw redirect URI raises, and any later call raises again; or the
    directory raises, nothing is assigned, and any later call that looks
    the client up raises again. *)
Lemma error_response_run (error : ErrorCode) (description : string)
    (attempt : bool) (s : Locals) :
  consistent s ->
  (exists s',
      error_response lib provider error description attempt s
      = (Return (report error description s'), s')
      /\ consistent s' /\ params s' = params s
      /\ state s' = best_effort_extract_string "state" (params s)
      /\ (client s' = client s \/ (client s = Unset /\ attempt = true))
      /\ (redirect_uri s' = redirect_uri s \/ redirect_uri s = None))
  \/ (exists s' errors,
         error_response lib provider error description attempt s
         = (Raise (ValidationError errors), s')
         /\ consistent s' /\ params s' = params s
         /\ unparsable_redirect (params s)
         /\ (exists c, client s = Loaded c
                       \/ (client s = Unset /\ recovered (params s) c))
         /\ forall error' description' attempt',
             error_response lib provider error' description' attempt' s'
             = (Raise (ValidationError errors), s'))
  \/ (exists e,
         error_response lib provider error description attempt s
         = (Raise e, s)
         /\ client s = Unset /\ attempt = true
         /\ directory_fails (params s) e
         /\ forall error' description',
             error_response lib provider error' description' true s
             = (Raise e, s)).
Proof.
  intros Hs. unfold error_response.
  destruct (load_client_run attempt s)
    as [(slot & Hload & Hslot) | (e & Hload & Hunset & Hattempt & Hfails)].
  2: { right. right. exists e. subst attempt.
       assert (forall (A : Type) (k : M A),
                  bind (load_client provider true) (fun _ => k) s
                  = (Raise e, s)) as Hraise
           by (intros A k; unfold bind; now rewrite Hload).
       repeat apply conj; auto. }
  set (s1 := mkLocals (state s) (redirect_uri s) slot (params s)) in *.
  assert (consistent s1) as Hs1.
  { destruct Hs as [Hc Hr Hst]. destruct Hslot as [-> | (Hunset & _ & Hres)].
    - constructor; simpl; auto.
    - constructor; simpl; auto using recovered_resolved.
      intros uri Huri. destruct (Hr uri Huri) as (c & Hcl & _). congruence. }
  assert (client s1 = client s \/ (client s = Unset /\ attempt = true)) as Hcl1.
  { destruct Hslot as [-> | (Hunset & Ha & _)]; auto. }
  destruct (load_redirect_uri_run s1)
    as [Hkeep | [(c & uri & Hnone & Hc & Hval & Hstore)
                | (c & errors & Hnone & Hc & Hbad & Hraise)]].
  - left.
    destruct (consistent_load_state _ Hs1) as [Hs3 Hstate].
    eexists. split.
    { unfold bind at 1. rewrite Hload. unfold bind at 1. rewrite Hkeep.
      unfold bind at 1. rewrite load_state_run. apply emit_run. }
    split; [exact Hs3|]. simpl. repeat apply conj; auto.
  - left.
    set (s2 := mkLocals (state s1) (Some uri) (client s1) (params s1)) in *.
    assert (consistent s2) as Hs2.
    { destruct Hs1 as [Hc1 Hr1 Hst1]. constructor; simpl; auto.
      intros u Hu. injection Hu as <-. exists c. auto. }
    destruct (consistent_load_state _ Hs2) as [Hs3 Hstate].
    eexists. split.
    { unfold bind at 1. rewrite Hload. unfold bind at 1. rewrite Hstore.
      unfold bind at 1. rewrite load_state_run. apply emit_run. }
    split; [exact Hs3|]. simpl. repeat apply conj; auto.
  - right. left. exists s1, errors. split.
    { unfold bind at 1. rewrite Hload. unfold bind at 1. rewrite Hraise.
      reflexivity. }
    split; [exact Hs1|]. repeat apply conj; auto.
    { exists c. simpl in Hc. subst slot.
      destruct Hslot as [Hsame | (Hunset & _ & Hrec)]; auto. }
    intros error' description' attempt'.
    unfold bind at 1. rewrite load_client_keeps; [|left; congruence].
    unfold bind at 1. rewrite Hraise. reflexivity.
Qed.

(** ** The paths through the handler's body *)

Lemma decoded_Some (request : Request) (p : MultiDict) :
  decoded request = Some p ->
  (if String.eqb (method request) "GET"
   then Return (query_params request) else form request) = Return p.
Proof.
  unfold decoded. destruct (String.eqb (method request) "GET").
  - intros H. now injection H as <-.
  - destruct (form request); intros H; [now injection H as <-|discriminate].
Qed.

Lemma decoded_None (request : Request) :
  decoded request = None ->
  exists e,
    (if String.eqb (method request) "GET"
     then Return (query_params request) else form request) = Raise e.
Proof.
  unfold decoded. destruct (String.eqb (method request) "GET"); [discriminate|].
  destruct (form request) as [d|e]; [discriminate|eauto].
Qed.

Lemma body_undecodable (request : Request) :
  decoded request = None ->
  exists e, handler_body lib provider request initial = (Raise e, initial).
Proof.
  intros H. destruct (decoded_None _ H) as [e He]. exists e.
  unfold handler_body. run_step. rewrite He. reflexivity.
Qed.

Lemma body_parse_failure (request : Request) (p : MultiDict)
    (errors : list ErrorDetails) :
  decoded request = Some p ->
  AuthorizationRequest.model_validate lib p = Raise (ValidationError errors) ->
  handler_body lib provider request initial
  = error_response lib provider (classify errors)
      (stringify_pydantic_error lib errors) true (parsed p).
Proof.
  intros Hp Herr. unfold handler_body. run_step.
  rewrite (decoded_Some _ _ Hp), Herr. reflexivity.
Qed.

Lemma body_unknown_client (request : Request) (p : MultiDict)
    (req : AuthorizationRequest.t) :
  decoded request = Some p ->
  AuthorizationRequest.model_validate lib p = Return req ->
  get_client provider (AuthorizationRequest.client_id req) = Return None ->
  handler_body lib provider request initial
  = error_response lib provider invalid_request
      ("Client ID '" ++ AuthorizationRequest.client_id req ++ "' not found")
      false (looked_up p req Unset).
Proof.
  intros Hp Hreq Hnone. unfold handler_body. run_step.
  rewrite (decoded_Some _ _ Hp), Hreq, Hnone. reflexivity.
Qed.

Lemma body_redirect_failure (request : Request) (p : MultiDict)
    (req : AuthorizationRequest.t) (c : Client) (message : string) :
  decoded request = Some p ->
  AuthorizationRequest.model_validate lib p = Return req ->
  get_client provider (AuthorizationRequest.client_id req) = Return (Some c) ->
  validate_redirect_uri (AuthorizationRequest.redirect_uri req) c
  = Raise (InvalidRequestError message) ->
  handler_body lib provider request initial
  = error_response lib provider invalid_request message true
      (looked_up p req (Loaded c)).
Proof.
  intros Hp Hreq Hc Hval. unfold handler_body. run_step.
  rewrite (decoded_Some _ _ Hp), Hreq, Hc, Hval. reflexivity.
Qed.

Lemma body_scope_failure (request : Request) (p : MultiDict)
    (req : AuthorizationRequest.t) (c : Client) (uri : AnyHttpUrl)
    (message : string) :
  decoded request = Some p ->
  AuthorizationRequest.model_validate lib p = Return req ->
  get_client provider (AuthorizationRequest.client_id req) = Return (Some c) ->
  validate_redirect_uri (AuthorizationRequest.redirect_uri req) c = Return uri ->
  validate_scope (AuthorizationRequest.scope req) c
  = Raise (InvalidRequestError message) ->
  handler_body lib provider request initial
  = error_response lib provider invalid_scope message true (verified p req c uri).
Proof.
  intros Hp Hreq Hc Hval Hscope. unfold handler_body. run_step.
  rewrite (decoded_Some _ _ Hp), Hreq, Hc, Hval, Hscope. reflexivity.
Qed.

Lemma body_delegation (request : Request) (p : MultiDict)
    (req : AuthorizationRequest.t) (c : Client) (uri : AnyHttpUrl)
    (scopes : option (list string)) :
  decoded request = Some p ->
  AuthorizationRequest.model_validate lib p = Return req ->
  get_client provider (AuthorizationRequest.client_id req) = Return (Some c) ->
  validate_redirect_uri (AuthorizationRequest.redirect_uri req) c = Return uri ->
  validate_scope (AuthorizationRequest.scope req) c = Return scopes ->
  handler_body lib provider request initial
  = (match authorize provider c
             (mkAuthorizationParams (AuthorizationRequest.state req) scopes
                (AuthorizationRequest.code_challenge req) uri) with
     | Return next =>
         if header_encodable lib next
         then Return (RedirectResponse next 302 no_store)
         else Raise (OtherException "UnicodeEncodeError")
     | Raise e => Raise e
     end,
     verified p req c uri).
Proof.
  intros Hp Hreq Hc Hval Hscope. unfold handler_body. run_step.
  rewrite (decoded_Some _ _ Hp), Hreq, Hc. simpl. rewrite Hval, Hscope.
  destruct (authorize provider c _) as [next|e]; [|reflexivity].
  simpl. destruct (header_encodable lib next); reflexivity.
Qed.

Lemma body_lookup_failure (request : Request) (p : MultiDict)
    (req : AuthorizationRequest.t) (e : Exception) :
  decoded request = Some p ->
  AuthorizationRequest.model_validate lib p = Return req ->
  get_client provider (AuthorizationRequest.client_id req) = Raise e ->
  handler_body lib provider request initial = (Raise e, looked_up p req Unset).
Proof.
  intros Hp Hreq Hfail. unfold handler_body. run_step.
  rewrite (decoded_Some _ _ Hp), Hreq, Hfail. reflexivity.
Qed.

(** The variables are consistent at each of these points. *)

Lemma consistent_initial : consistent initial.
Proof. constructor; simpl; intros; discriminate. Qed.

Lemma consistent_parsed (p : MultiDict) : consistent (parsed p).
Proof. constructor; simpl; intros; try discriminate; assumption. Qed.

Lemma consistent_looked_up (p : MultiDict) (req : AuthorizationRequest.t)
    (found : option Client) :
  AuthorizationRequest.model_validate lib p = Return req ->
  (forall c, found = Some c ->
             get_client provider (AuthorizationRequest.client_id req)
             = Return (Some c)) ->
  consistent (looked_up p req (slot_of_lookup found)).
Proof.
  intros Hreq Hfound.
  destruct (model_validate_fields _ _ Hreq) as (Hid & _ & Hstate & _).
  constructor; simpl.
  - intros c Hc. exists (AuthorizationRequest.client_id req).
    unfold best_effort_extract_string. rewrite Hid. split; [reflexivity|].
    destruct found as [c'|]; simpl in Hc; [|discriminate].
    injection Hc as ->. now apply Hfound.
  - discriminate.
  - intros x Hx. simpl in Hstate. congruence.
Qed.

Lemma consistent_verified (p : MultiDict) (req : AuthorizationRequest.t)
    (c : Client) (uri : AnyHttpUrl) :
  AuthorizationRequest.model_validate lib p = Return req ->
  get_client provider (AuthorizationRequest.client_id req) = Return (Some c) ->
  validate_redirect_uri (AuthorizationRequest.redirect_uri req) c = Return uri ->
  consistent (verified p req c uri).
Proof.
  intros Hreq Hc Hval.
  assert (consistent (looked_up p req (slot_of_lookup (Some c))))
    as [Hcl _ Hst].
  { apply consistent_looked_up; [exact Hreq|].
    intros c' H. injection H as <-. exact Hc. }
  destruct (model_validate_fields _ _ Hreq) as (_ & Huri & _ & _).
  constructor; simpl; auto.
  intros u Hu. injection Hu as <-. exists c. split; [reflexivity|].
  exists (AuthorizationRequest.redirect_uri req). split; [exact Hval|].
  destruct (AuthorizationRequest.redirect_uri req) as [candidate|].
  - destruct Huri as (text & Hget & Hparse). exists text. simpl.
    rewrite Hget. auto.
  - exists p. unfold contains. rewrite Huri. auto.
Qed.

(** ** The catch-all around the body *)

Lemma handler_run_caught (request : Request) :
  authorization_handler_run lib provider request
  = caught (handler_body lib provider request initial).
Proof.
  unfold authorization_handler_run, try_except, caught.
  destruct (handler_body lib provider request initial) as [[resp|e] s];
    reflexivity.
Qed.

(** An error reported from inside the body, seen from outside the handler:
    the report is returned, or the recovery raised and the catch-all's own
    attempt raises the same way. *)
Lemma caught_error_response (error : ErrorCode) (description : string)
    (attempt : bool) (s : Locals) :
  consistent s ->
  (exists s',
      caught (error_response lib provider error description attempt s)
      = (Return (report error description s'), s')
      /\ consistent s' /\ params s' = params s
      /\ state s' = best_effort_extract_string "state" (params s)
      /\ (client s' = client s \/ (client s = Unset /\ attempt = true))
      /\ (redirect_uri s' = redirect_uri s \/ redirect_uri s = None))
  \/ (exists s' errors,
         caught (error_response lib provider error description attempt s)
         = (Raise (ValidationError errors), s')
         /\ unparsable_redirect (params s)
         /\ exists c, client s = Loaded c
                      \/ (client s = Unset /\ recovered (params s) c))
  \/ (exists e,
         caught (error_response lib provider error description attempt s)
         = (Raise e, s)
         /\ directory_fails (params s) e).
Proof.
  intros Hs.
  destruct (error_response_run error description attempt s Hs)
    as [(s' & Heq & Hrest)
       | [(s' & errors & Heq & _ & _ & Hbad & Hc & Hagain)
         | (e & Heq & _ & _ & Hfails & Hagain)]].
  - left. exists s'. rewrite Heq. simpl. split; [reflexivity|exact Hrest].
  - right. left. exists s', errors. rewrite Heq. simpl. auto.
  - right. right. exists e. rewrite Heq. simpl. auto.
Qed.


Lemma parsed_redirect_parsable (p : MultiDict) (req : AuthorizationRequest.t) :
  AuthorizationRequest.model_validate lib p = Return req ->
  ~ unparsable_redirect (Some p).
Proof.
  intros Hreq Hbad.
  destruct (model_validate_fields p req Hreq) as (_ & Huri & _ & _).
  unfold unparsable_redirect in Hbad.
  destruct (AuthorizationRequest.redirect_uri req) as [candidate|].
  - destruct Huri as (text & Hget & Hparse). rewrite Hget in Hbad. congruence.
  - now rewrite Huri in Hbad.
Qed.

(** The three ways a run of the handler ends. *)
Lemma handler_cases (request : Request) :
  (exists resp,
      authorization_handler lib provider request = Return resp
      /\ (delegated request resp \/ reported request resp))
  \/ (exists errors,
         authorization_handler lib provider request
         = Raise (ValidationError errors)
         /\ escapes request
         /\ exists p e, decoded request = Some p
                        /\ AuthorizationRequest.model_validate lib p = Raise e)
  \/ (exists e,
         authorization_handler lib provider request = Raise e
         /\ directory_fails (decoded request) e).
Proof.
  unfold authorization_handler. rewrite handler_run_caught.
  assert (forall error description attempt s,
             consistent s -> params s = decoded request ->
             ~ (unparsable_redirect (params s) /\ exists c, client s = Loaded c) ->
             (unparsable_redirect (params s)
              /\ (exists c, client s = Unset /\ recovered (params s) c) ->
              exists p e, decoded request = Some p
                          /\ AuthorizationRequest.model_validate lib p = Raise e) ->
             (exists resp,
                 fst (caught (error_response lib provider error description
                                attempt s)) = Return resp
                 /\ (delegated request resp \/ reported request resp))
             \/ (exists errors,
                    fst (caught (error_response lib provider error description
                                   attempt s)) = Raise (ValidationError errors)
                    /\ escapes request
                    /\ exists p e,
                         decoded request = Some p
                         /\ AuthorizationRequest.model_validate lib p = Raise e)
             \/ (exists e,
                    fst (caught (error_response lib provider error description
                                   attempt s)) = Raise e
                    /\ directory_fails (decoded request) e))
    as Hreport.
  { intros error description attempt s Hs Hp Hloaded Hfailed.
    destruct (caught_error_response error description attempt s Hs)
      as [(s' & Heq & Hs' & Hp' & Hst & _)
         | [(s' & errors & Heq & Hbad & c & [Hc | [Hc Hrec]])
           | (e & Heq & Hfails)]];
      rewrite Heq; simpl.
    - left. eexists. split; [reflexivity|]. right.
      exists error, description, s'. rewrite <- Hp, <- Hst, Hp'. auto.
    - elim Hloaded. eauto.
    - right. left. exists errors. split; [reflexivity|]. split.
      + unfold escapes. rewrite <- Hp. eauto.
      + apply Hfailed. eauto.
    - right. right. exists e. rewrite <- Hp. auto. }
  assert (forall s,
             consistent s -> params s = decoded request ->
             ~ unparsable_redirect (params s)
             \/ (client s = Unset /\ forall c, ~ recovered (params s) c) ->
             (exists resp,
                 fst (error_response lib provider server_error
                        "An unexpected error occurred" true s) = Return resp
                 /\ (delegated request resp \/ reported request resp))
             \/ (exists e,
                    fst (error_response lib provider server_error
                           "An unexpected error occurred" true s) = Raise e
                    /\ directory_fails (decoded request) e))
    as Hlast.
  { intros s Hs Hp Hsafe.
    destruct (error_response_run server_error "An unexpected error occurred"
                true s Hs)
      as [(s' & Heq & Hs' & Hp' & Hst & _)
         | [(s' & errors & Heq & _ & _ & Hbad & (c & [Hc | [Hc Hrec]]) & _)
           | (e & Heq & _ & _ & Hfails & _)]];
      rewrite Heq; simpl.
    - left. eexists. split; [reflexivity|]. right.
      exists server_error, "An unexpected error occurred", s'.
      rewrite <- Hp, <- Hst, Hp'. auto.
    - destruct Hsafe as [Hok | [Hunset _]]; [contradiction|congruence].
    - destruct Hsafe as [Hok | [_ Hnone]]; [contradiction|].
      now elim (Hnone c).
    - right. exists e. rewrite <- Hp. auto. }
  assert (forall s,
             consistent s -> params s = decoded request ->
             ~ unparsable_redirect (params s)
             \/ (client s = Unset /\ forall c, ~ recovered (params s) c) ->
             (exists resp,
                 fst (error_response lib provider server_error
                        "An unexpected error occurred" true s) = Return resp
                 /\ (delegated request resp \/ reported request resp))
             \/ (exists errors,
                    fst (error_response lib provider server_error
                           "An unexpected error occurred" true s)
                    = Raise (ValidationError errors)
                    /\ escapes request
                    /\ exists p e,
                         decoded request = Some p
                         /\ AuthorizationRequest.model_validate lib p = Raise e)
             \/ (exists e,
                    fst (error_response lib provider server_error
                           "An unexpected error occurred" true s) = Raise e
                    /\ directory_fails (decoded request) e))
    as Hcatch.
  { intros s Hs Hp Hsafe.
    destruct (Hlast s Hs Hp Hsafe) as [H | H]; auto. }
  destruct (decoded request) as [p|] eqn:Hp.
  - destruct (AuthorizationRequest.model_validate lib p) as [req|exn] eqn:Hreq.
    + pose proof (parsed_redirect_parsable p req Hreq) as Hparsable.
      destruct (get_client provider (AuthorizationRequest.client_id req))
        as [[c|]|e] eqn:Hc.
      * destruct (validate_redirect_uri (AuthorizationRequest.redirect_uri req) c)
          as [uri|e] eqn:Hval.
        -- destruct (validate_scope (AuthorizationRequest.scope req) c)
             as [scopes|e] eqn:Hscope.
           ++ rewrite (body_delegation request p req c uri scopes Hp Hreq Hc Hval Hscope).
              destruct (authorize provider c _) as [next|e] eqn:Hnext.
              ** destruct (header_encodable lib next) eqn:Henc; simpl.
                 --- left. eexists. split; [reflexivity|]. left.
                     exists p, req, c, uri, scopes, next. auto 10.
                 --- apply (Hcatch (verified p req c uri)).
                     +++ now apply consistent_verified.
                     +++ reflexivity.
                     +++ now left.
              ** simpl. apply (Hcatch (verified p req c uri)).
                 --- now apply consistent_verified.
                 --- reflexivity.
                 --- now left.
           ++ destruct (validate_scope_raises _ _ _ Hscope) as [message ->].
              rewrite (body_scope_failure request p req c uri message Hp Hreq Hc Hval Hscope).
              apply Hreport.
              ** now apply consistent_verified.
              ** reflexivity.
              ** intros [Hbad _]. now apply Hparsable.
              ** intros [Hbad _]. now elim Hparsable.
        -- destruct (validate_redirect_uri_raises _ _ _ Hval) as [message ->].
           rewrite (body_redirect_failure request p req c message Hp Hreq Hc Hval).
           apply Hreport.
           ++ apply (consistent_looked_up p req (Some c)); [exact Hreq|].
              intros c' H. injection H as <-. exact Hc.
           ++ reflexivity.
           ++ intros [Hbad _]. now apply Hparsable.
           ++ intros [Hbad _]. now elim Hparsable.
      * rewrite (body_unknown_client request p req Hp Hreq Hc).
        apply Hreport.
        -- apply (consistent_looked_up p req None); [exact Hreq|discriminate].
        -- reflexivity.
        -- intros [Hbad _]. now apply Hparsable.
        -- intros [Hbad _]. now elim Hparsable.
      * rewrite (body_lookup_failure request p req e Hp Hreq Hc). simpl.
        apply (Hcatch (looked_up p req Unset)).
        -- apply (consistent_looked_up p req None); [exact Hreq|discriminate].
        -- reflexivity.
        -- now left.
    + destruct (model_validate_raises p exn Hreq) as (errors & -> & _).
      rewrite (body_parse_failure request p errors Hp Hreq).
      apply Hreport.
      * apply consistent_parsed.
      * reflexivity.
      * intros [_ [c Hc]]. discriminate.
      * intros _. eauto.
  - destruct (body_undecodable request Hp) as [e He]. rewrite He. simpl.
    apply (Hcatch initial).
    + apply consistent_initial.
    + reflexivity.
    + right. split; [reflexivity|].
      intros c (id & Hid & _). discriminate.
Qed.

(** Every response of the handler is the delegated redirect or a report. *)
Lemma handler_outcome (request : Request) (resp : Response) :
  authorization_handler lib provider request = Return resp ->
  delegated request resp
  \/ exists error description s,
       resp = report error description s
       /\ consistent s
       /\ params s = decoded request
       /\ state s = best_effort_extract_string "state" (decoded request).
Proof.
  intros Hret.
  destruct (handler_cases request)
    as [(resp' & Heq & Hshape) | [(errors & Heq & _) | (e & Heq & _)]];
    [|congruence|congruence].
  rewrite Heq in Hret. injection Hret as <-. exact Hshape.
Qed.




Lemma error_response_reports (error : ErrorCode) (description : string)
    (attempt : bool) (s s' : Locals) (resp : Response) :
  error_response lib provider error description attempt s = (Return resp, s') ->
  resp = report error description s'.
Proof.
  unfold error_response.
  destruct (load_client_run attempt s)
    as [(slot & Hload & _) | (e & Hload & _)];
    unfold bind at 1; rewrite Hload; [|discriminate].
  destruct (load_redirect_uri_run
              (mkLocals (state s) (redirect_uri s) slot (params s)))
    as [Hkeep | [(c & uri & _ & _ & _ & Hstore)
                | (c & errors & _ & _ & _ & Hraise)]];
    unfold bind at 1.
  - rewrite Hkeep. unfold bind at 1. rewrite load_state_run, emit_run.
    intros H. injection H as <- <-. reflexivity.
  - rewrite Hstore. unfold bind at 1. rewrite load_state_run, emit_run.
    intros H. injection H as <- <-. reflexivity.
  - rewrite Hraise. discriminate.
Qed.

(** When neither the client nor the redirect URI recovery changes
    anything, the report is that of the current variables, with the state
    filled in. *)
Lemma error_response_settled (error : ErrorCode) (description : string)
    (attempt : bool) (s : Locals) :
  load_client provider attempt s = (Return tt, s) ->
  load_redirect_uri lib s = (Return tt, s) ->
  state s = best_effort_extract_string "state" (params s) ->
  error_response lib provider error description attempt s
  = (Return (report error description s), s).
Proof.
  intros Hclient Huri Hstate. unfold error_response.
  unfold bind at 1. rewrite Hclient.
  unfold bind at 1. rewrite Huri.
  unfold bind at 1. rewrite load_state_run.
  replace (mkLocals _ (redirect_uri s) (client s) (params s)) with s.
  - apply emit_run.
  - destruct s as [st ru cl p]. simpl in *.
    destruct st; [reflexivity|]. now rewrite <- Hstate.
Qed.

(** After a failed validation in the body, the recovery validates the
    same candidate against the same client and fails the same way. *)
Lemma load_redirect_uri_fails_again (p : MultiDict)
    (req : AuthorizationRequest.t) (c : Client) (e : Exception) :
  AuthorizationRequest.model_validate lib p = Return req ->
  validate_redirect_uri (AuthorizationRequest.redirect_uri req) c = Raise e ->
  load_redirect_uri lib (looked_up p req (Loaded c))
  = (Return tt, looked_up p req (Loaded c)).
Proof.
  intros Hreq Hval.
  destruct (model_validate_fields p req Hreq) as (_ & Huri & _ & _).
  destruct (validate_redirect_uri_raises _ _ _ Hval) as [message ->].
  unfold load_redirect_uri, looked_up. run_step.
  unfold contains, AnyHttpUrlModel_model_validate.
  destruct (AuthorizationRequest.redirect_uri req) as [candidate|].
  - destruct Huri as (text & Hget & Hparse).
    rewrite Hget. simpl. rewrite Hparse, Hval. reflexivity.
  - rewrite Huri. simpl. rewrite Hval. reflexivity.
Qed.

(** ** The claims *)

(** C1. Every response of the authorization handler that redirects to
    report an error targets a URI that [validate_redirect_uri] returned
    for the client the directory holds for the request's [client_id]:
    either the candidate the request carries, found in the client's
    registered URIs, or the client's only registered URI when the request
    carries no [redirect_uri].  Any other response is the direct report or
    the provider's own next-step redirect. *)
Theorem error_redirect_targets_validated_uri (request : Request)
    (resp : Response) :
  authorization_handler lib provider request = Return resp ->
  delegated request resp
  \/ exists error_resp,
       resp = PydanticJSONResponse 400 error_resp no_store
       \/ exists c raw uri,
            resp = RedirectResponse
                     (construct_redirect_uri lib uri
                        (ErrorResponse.model_dump error_resp))
                     302 no_store
            /\ resolved (decoded request) c
            /\ validate_redirect_uri raw c = Return uri
            /\ In uri (OAuthClientInformationFull.redirect_uris c)
            /\ match raw with
               | Some candidate =>
                   candidate = uri
                   /\ exists text,
                        best_effort_extract_string "redirect_uri"
                          (decoded request) = Some text
                        /\ parse_url lib text = Some candidate
               | None =>
                   OAuthClientInformationFull.redirect_uris c = [uri]
                   /\ exists d, decoded request = Some d
                                /\ contains "redirect_uri" d = false
               end.
Proof.
  intros Hret.
  destruct (handler_outcome request resp Hret)
    as [Hdel | (error & description & s & -> & [Hcl Hru Hst] & Hp & _)];
    [now left|].
  right. exists (ErrorResponse.mk error description None (state s)).
  unfold report.
  destruct (redirect_uri s) as [uri|] eqn:Huri; [|now left].
  destruct (client s) as [| |c] eqn:Hc; try (now left).
  right.
  destruct (Hru uri eq_refl) as (c' & Hc' & raw & Hval & Hraw).
  injection Hc' as <-.
  exists c, raw, uri. rewrite <- Hp.
  destruct (validate_redirect_uri_member raw c uri Hval) as [Hin Hsel].
  repeat apply conj; auto.
  destruct raw as [candidate|]; auto.
Qed.

(** C2. Whenever [error_response] hands back a report, it is the 302
    redirect to the redirect URI, with the fields of the report as query
    parameters, exactly when the variables hold both a client and a
    redirect URI once recovery is over; otherwise it is the direct JSON
    response with status 400; and both carry [Cache-Control: no-store]. *)
Theorem error_channel_decision (error : ErrorCode) (description : string)
    (attempt : bool) (s s' : Locals) (resp : Response) :
  error_response lib provider error description attempt s = (Return resp, s') ->
  let error_resp := ErrorResponse.mk error description None (state s') in
  (exists uri c,
      redirect_uri s' = Some uri /\ client s' = Loaded c
      /\ resp = RedirectResponse
                  (construct_redirect_uri lib uri
                     (ErrorResponse.model_dump error_resp))
                  302 [("Cache-Control", "no-store")])
  \/ (~ (exists uri c, redirect_uri s' = Some uri /\ client s' = Loaded c)
      /\ resp = PydanticJSONResponse 400 error_resp
                  [("Cache-Control", "no-store")]).
Proof.
  intros Hrun. apply error_response_reports in Hrun. subst resp.
  unfold report. simpl.
  destruct (redirect_uri s') as [uri|]; [destruct (client s') as [| |c]|].
  3: left; eauto.
  all: right; split; [intros (u & c' & Hu & Hc); discriminate | reflexivity].
Qed.

Lemma handler_of_body (request : Request) (resp : Response) (s : Locals) :
  handler_body lib provider request initial = (Return resp, s) ->
  authorization_handler lib provider request = Return resp.
Proof.
  intros Hbody. unfold authorization_handler.
  rewrite handler_run_caught, Hbody. reflexivity.
Qed.

(** C4. A request whose fields parse and whose [client_id] the directory
    does not know is answered with the direct 400 JSON report
    [invalid_request], whatever its other fields are. *)
Theorem unknown_client_direct_response (request : Request) (p : MultiDict)
    (req : AuthorizationRequest.t) :
  decoded request = Some p ->
  AuthorizationRequest.model_validate lib p = Return req ->
  get_client provider (AuthorizationRequest.client_id req) = Return None ->
  authorization_handler lib provider request
  = Return (PydanticJSONResponse 400
              (ErrorResponse.mk invalid_request
                 ("Client ID '" ++ AuthorizationRequest.client_id req
                  ++ "' not found")
                 None (AuthorizationRequest.state req))
              [("Cache-Control", "no-store")]).
Proof.
  intros Hp Hreq Hnone.
  destruct (model_validate_fields p req Hreq) as (_ & _ & Hstate & _).
  apply handler_of_body with (s := looked_up p req Unset).
  rewrite (body_unknown_client request p req Hp Hreq Hnone).
  rewrite error_response_settled.
  - reflexivity.
  - apply load_client_keeps. now right.
  - apply load_redirect_uri_keeps. right. discriminate.
  - exact Hstate.
Qed.


(** C6. When the client is known and the redirect URI does not validate
    (the candidate is not among the client's registered URIs, or none is
    given and the client has not exactly one registered URI), the handler
    answers with the direct 400 JSON report [invalid_request]. *)
Theorem redirect_failure_direct_response (request : Request) (p : MultiDict)
    (req : AuthorizationRequest.t) (c : Client) :
  decoded request = Some p ->
  AuthorizationRequest.model_validate lib p = Return req ->
  get_client provider (AuthorizationRequest.client_id req) = Return (Some c) ->
  match AuthorizationRequest.redirect_uri req with
  | Some candidate => ~ In candidate (OAuthClientInformationFull.redirect_uris c)
  | None => length (OAuthClientInformationFull.redirect_uris c) <> 1
  end ->
  exists message,
    validate_redirect_uri (AuthorizationRequest.redirect_uri req) c
    = Raise (InvalidRequestError message)
    /\ authorization_handler lib provider request
       = Return (PydanticJSONResponse 400
                   (ErrorResponse.mk invalid_request message None
                      (AuthorizationRequest.state req))
                   [("Cache-Control", "no-store")]).
Proof.
  intros Hp Hreq Hc Hfail.
  destruct (model_validate_fields p req Hreq) as (_ & _ & Hstate & _).
  assert (exists message,
             validate_redirect_uri (AuthorizationRequest.redirect_uri req) c
             = Raise (InvalidRequestError message)) as [message Hval].
  { destruct (validate_redirect_uri (AuthorizationRequest.redirect_uri req) c)
      as [uri|e] eqn:Hval.
    - destruct (validate_redirect_uri_member _ _ _ Hval) as [Hin Hsel].
      destruct (AuthorizationRequest.redirect_uri req) as [candidate|].
      + subst candidate. contradiction.
      + rewrite Hsel in Hfail. now elim Hfail.
    - destruct (validate_redirect_uri_raises _ _ _ Hval) as [message ->].
      eauto. }
  exists message. split; [exact Hval|].
  apply handler_of_body with (s := looked_up p req (Loaded c)).
  rewrite (body_redirect_failure request p req c message Hp Hreq Hc Hval).
  rewrite error_response_settled.
  - reflexivity.
  - apply load_client_keeps. left. discriminate.
  - exact (load_redirect_uri_fails_again p req c _ Hreq Hval).
  - exact Hstate.
Qed.


(** C8. When the request gives no [redirect_uri] and the client has
    exactly one registered redirect URI, that URI is the one selected; if
    the requested scope then holds a token outside the client's allowed
    scopes, the handler answers with the 302 redirect to that URI whose
    query carries [invalid_scope], the description and the echoed state. *)
Theorem sole_redirect_uri_scope_error (request : Request) (p : MultiDict)
    (req : AuthorizationRequest.t) (c : Client) (uri : AnyHttpUrl)
    (requested token : string) :
  decoded request = Some p ->
  AuthorizationRequest.model_validate lib p = Return req ->
  AuthorizationRequest.redirect_uri req = None ->
  get_client provider (AuthorizationRequest.client_id req) = Return (Some c) ->
  OAuthClientInformationFull.redirect_uris c = [uri] ->
  AuthorizationRequest.scope req = Some requested ->
  In token (split space requested) ->
  ~ In token (OAuthClientInformationFull.allowed_scopes c) ->
  validate_redirect_uri (AuthorizationRequest.redirect_uri req) c = Return uri
  /\ exists rejected,
       In rejected (split space requested)
       /\ ~ In rejected (OAuthClientInformationFull.allowed_scopes c)
       /\ authorization_handler lib provider request
          = Return (RedirectResponse
                      (construct_redirect_uri lib uri
                         ([("error", "invalid_scope");
                           ("error_description",
                            "Client was not registered with scope " ++ rejected)]
                          ++ match AuthorizationRequest.state req with
                             | Some value => [("state", value)]
                             | None => []
                             end))
                      302 [("Cache-Control", "no-store")]).
Proof.
  intros Hp Hreq Hnone Hc Huris Hscope Htoken Hout.
  destruct (model_validate_fields p req Hreq) as (_ & _ & Hstate & _).
  assert (validate_redirect_uri (AuthorizationRequest.redirect_uri req) c
          = Return uri) as Hval.
  { rewrite Hnone. unfold validate_redirect_uri. now rewrite Huris. }
  split; [exact Hval|].
  destruct (first_not_in (OAuthClientInformationFull.allowed_scopes c)
              (split space requested)) as [rejected|] eqn:Hfirst.
  - destruct (first_not_in_Some _ _ _ Hfirst) as [Hin Hnot].
    exists rejected. repeat apply conj; auto.
    assert (validate_scope (AuthorizationRequest.scope req) c
            = Raise (InvalidRequestError
                       ("Client was not registered with scope " ++ rejected)))
      as Hbad.
    { rewrite Hscope. unfold validate_scope. now rewrite Hfirst. }
    apply handler_of_body with (s := verified p req c uri).
    rewrite (body_scope_failure request p req c uri _ Hp Hreq Hc Hval Hbad).
    rewrite error_response_settled.
    + reflexivity.
    + apply load_client_keeps. left. discriminate.
    + apply load_redirect_uri_keeps. left. discriminate.
    + exact Hstate.
  - exfalso. apply Hout.
    exact (proj1 (first_not_in_None _ _) Hfirst token Htoken).
Qed.

End AuthorizationProperties.

(** C3.  The handler does not always return.  With a known client and a
    [redirect_uri] that is present and is not a URL, or is not a string,
    parsing fails, [error_response] loads the client and then parses the
    raw redirect URI outside its [try] block; the [ValidationError] reaches
    the catch-all, whose own call of [error_response] finds the client
    loaded, parses the same value and raises again, out of the handler. *)
Theorem malformed_redirect_uri_escapes_handler :
  authorization_handler Demo.lib Demo.provider Demo.malformed_redirect
  = Raise (ValidationError [mkErrorDetails EmptyString url_parsing])
  /\ authorization_handler Demo.lib Demo.provider Demo.file_redirect
     = Raise (ValidationError [mkErrorDetails EmptyString url_type]).
Proof. split; reflexivity. Qed.


(** * Properties of the revocation handler *)

Section RevocationProperties.

Variable RevocationRequest : Type.
Variable model_validate_json : string -> Result RevocationRequest.
Variable str_of_errors : list ErrorDetails -> string.
Variable client_authenticator : RevocationRequest -> Result Client.
Variable Store : Type.
Variable revoke_token :
  option (Client -> RevocationRequest -> Store -> Result unit * Store).

(** C9, as the code has it.  The revocation handler calls nothing when the
    body does not parse.  When it parses, the authenticator is called
    first; if authentication fails, its error leaves the handler and the
    hook is never invoked, the store being left as it was.  If
    authentication succeeds and no hook is configured, the handler returns
    the empty 200 response with [Cache-Control: no-store] and
    [Pragma: no-cache] and leaves the store alone.  If a hook is
    configured, it is invoked once, after the authenticator, on the
    authenticated client and the parsed request; the store is as the hook
    leaves it; the handler returns the same empty 200 response when the
    hook returns, and an exception the hook raises leaves the handler.
    The hook is never invoked unless parsing and authentication both
    succeeded. *)
Theorem revocation_hook_after_authentication (body : string)
    (w : World RevocationRequest Store) :
  let run :=
    revocation_handler model_validate_json str_of_errors client_authenticator
      revoke_token body w in
  (forall e, model_validate_json body = Raise e ->
             snd run = w /\ exists e', fst run = Raise e')
  /\ (forall request e,
         model_validate_json body = Return request ->
         client_authenticator request = Raise e ->
         fst run = Raise e
         /\ store (snd run) = store w
         /\ calls (snd run) = (calls w ++ [Authenticate request])%list)
  /\ (forall request c,
         model_validate_json body = Return request ->
         client_authenticator request = Return c ->
         match revoke_token with
         | None =>
             fst run = Return (EmptyResponse 200
                                 [("Cache-Control", "no-store");
                                  ("Pragma", "no-cache")])
             /\ store (snd run) = store w
             /\ calls (snd run) = (calls w ++ [Authenticate request])%list
         | Some hook =>
             store (snd run) = snd (hook c request (store w))
             /\ calls (snd run)
                = (calls w ++ [Authenticate request; Revoke c request])%list
             /\ match fst (hook c request (store w)) with
                | Return _ =>
                    fst run = Return (EmptyResponse 200
                                        [("Cache-Control", "no-store");
                                         ("Pragma", "no-cache")])
                | Raise e => fst run = Raise e
                end
         end)
  /\ (forall c request,
         In (Revoke c request) (calls (snd run)) ->
         In (Revoke c request) (calls w)
         \/ (model_validate_json body = Return request
             /\ client_authenticator request = Return c)).
Proof.
  unfold revocation_handler, call_authenticator, call_revoke_token.
  destruct (model_validate_json body) as [request|e] eqn:Hparse; simpl.
  - destruct (client_authenticator request) as [c|e] eqn:Hauth; simpl.
    + repeat apply conj.
      * discriminate.
      * intros request' e Hreq. injection Hreq as <-. congruence.
      * intros request' c' Hreq Hc. injection Hreq as <-.
        assert (c' = c) as -> by congruence.
        destruct revoke_token as [hook|]; simpl; [|auto].
        destruct (hook c request (store w)) as [[[]|e] kept]; simpl;
          rewrite <- app_assoc; auto.
      * intros c' request' Hin.
        destruct revoke_token as [hook|]; simpl in Hin.
        -- destruct (hook c request (store w)) as [[[]|e] kept];
             simpl in Hin; rewrite !in_app_iff in Hin; simpl in Hin;
             destruct Hin as [[Hin|[Hin|[]]]|[Hin|[]]];
             try discriminate; auto;
             injection Hin as <- <-; auto.
        -- rewrite in_app_iff in Hin. simpl in Hin.
           destruct Hin as [Hin|[Hin|[]]]; try discriminate; auto.
    + repeat apply conj.
      * discriminate.
      * intros request' e' Hreq He. injection Hreq as <-.
        assert (e' = e) as -> by congruence. auto.
      * intros request' c' Hreq Hc. injection Hreq as <-. congruence.
      * intros c' request' Hin. rewrite in_app_iff in Hin. simpl in Hin.
        destruct Hin as [Hin|[Hin|[]]]; try discriminate; auto.
  - repeat apply conj.
    + intros e' _. destruct e; simpl; eauto.
    + discriminate.
    + discriminate.
    + intros c request Hin. left. destruct e; exact Hin.
Qed.

End RevocationProperties.

(** The hook [Demo.strict_revoke_token] raises on a token the store does
    not hold.  The body [app:s3cret:unknown-token] parses and
    authenticates, the hook raises, and the handler raises with it
    instead of returning the 200 response. *)
Lemma raising_hook_leaves_revocation_handler :
  ~ (forall body w request c,
        Demo.model_validate_json body = Return request ->
        Demo.client_authenticator request = Return c ->
        fst (revocation_handler Demo.model_validate_json
               (fun errors => String.concat ", " (map loc errors))
               Demo.client_authenticator (Some Demo.strict_revoke_token)
               body w)
        = Return (EmptyResponse 200
                    [("Cache-Control", "no-store"); ("Pragma", "no-cache")])).
Proof.
  intros Hclaim.
  specialize (Hclaim "app:s3cret:unknown-token" Demo.world
                (Demo.mkRevocationRequest "unknown-token" "app" "s3cret")
                Demo.app eq_refl eq_refl).
  discriminate Hclaim.
Qed.

(** * Scope validation for a client registered without scope *)

(** C10. For a client whose registration has no scope string, both scope
    validators reject every scope the request gives, naming its first
    token; the empty string is rejected too, since it splits into one
    empty token; so validation succeeds only when the request gives no
    scope, and then it returns no constraint. *)
Theorem unscoped_client_accepts_only_omitted_scope (c : Client) :
  OAuthClientInformationFull.scope c = None ->
  (forall requested,
      exists token rest,
        split space requested = token :: rest
        /\ validate_scope (Some requested) c
           = Raise (InvalidRequestError
                      ("Client was not registered with scope " ++ token))
        /\ OAuthClientInformationFull.validate_scope c (Some requested)
           = Raise (InvalidScopeError
                      ("Client was not registered with scope " ++ token)))
  /\ split space EmptyString = [EmptyString]
  /\ validate_scope (Some EmptyString) c
     = Raise (InvalidRequestError "Client was not registered with scope ")
  /\ validate_scope None c = Return None
  /\ OAuthClientInformationFull.validate_scope c None = Return None
  /\ (forall requested scopes,
         validate_scope requested c = Return scopes
         \/ OAuthClientInformationFull.validate_scope c requested = Return scopes ->
         requested = None /\ scopes = None).
Proof.
  intros Hnone.
  assert (forall requested,
             exists token rest,
               split space requested = token :: rest
               /\ validate_scope (Some requested) c
                  = Raise (InvalidRequestError
                             ("Client was not registered with scope " ++ token))
               /\ OAuthClientInformationFull.validate_scope c (Some requested)
                  = Raise (InvalidScopeError
                             ("Client was not registered with scope " ++ token)))
    as Hreject.
  { intros requested.
    unfold validate_scope, OAuthClientInformationFull.validate_scope,
      OAuthClientInformationFull.allowed_scopes.
    rewrite Hnone.
    destruct (split space requested) as [|token rest] eqn:Hsplit.
    - now elim (split_not_nil space requested).
    - exists token, rest. simpl. auto. }
  repeat apply conj; auto.
  - destruct (Hreject EmptyString) as (token & rest & Hsplit & Hval & _).
    simpl in Hsplit. injection Hsplit as <- <-. exact Hval.
  - intros [requested|] scopes H.
    + destruct (Hreject requested) as (token & rest & _ & Hval & Hmethod).
      destruct H as [H|H]; congruence.
    + destruct H as [H|H]; simpl in H; injection H as <-; auto.
Qed.

(** * The theorems at work on the concrete deployment *)

(** C1 on the bad-scope request: the redirect goes to the client's only
    registered URI. *)
Lemma error_redirect_targets_validated_uri_witness :
  authorization_handler Demo.lib Demo.provider Demo.bad_scope
  = Return Demo.bad_scope_response
  /\ (delegated Demo.lib Demo.provider Demo.bad_scope Demo.bad_scope_response
      \/ exists error_resp,
           Demo.bad_scope_response = PydanticJSONResponse 400 error_resp no_store
           \/ exists c raw uri,
                Demo.bad_scope_response
                = RedirectResponse
                    (construct_redirect_uri Demo.lib uri
                       (ErrorResponse.model_dump error_resp))
                    302 no_store
                /\ resolved Demo.provider (decoded Demo.bad_scope) c
                /\ validate_redirect_uri raw c = Return uri
                /\ In uri (OAuthClientInformationFull.redirect_uris c)
                /\ match raw with
                   | Some candidate =>
                       candidate = uri
                       /\ exists text,
                            best_effort_extract_string "redirect_uri"
                              (decoded Demo.bad_scope) = Some text
                            /\ parse_url Demo.lib text = Some candidate
                   | None =>
                       OAuthClientInformationFull.redirect_uris c = [uri]
                       /\ exists d, decoded Demo.bad_scope = Some d
                                    /\ contains "redirect_uri" d = false
                   end).
Proof.
  split; [reflexivity|].
  apply (error_redirect_targets_validated_uri Demo.lib Demo.provider
           Demo.bad_scope Demo.bad_scope_response).
  reflexivity.
Defined.

(** C2 on a call that recovers both the client and the redirect URI. *)
Lemma error_channel_decision_witness :
  let s := mkLocals (Some "s1") None Unset (Some (query_params Demo.bad_scope)) in
  let s' := mkLocals (Some "s1") (Some "https://a.example/cb") (Loaded Demo.app)
              (Some (query_params Demo.bad_scope)) in
  let resp :=
    RedirectResponse
      "https://a.example/cb?error=access_denied&error_description=no&state=s1"
      302 [("Cache-Control", "no-store")] in
  error_response Demo.lib Demo.provider access_denied "no" true s
  = (Return resp, s')
  /\ ((exists uri c,
          redirect_uri s' = Some uri /\ client s' = Loaded c
          /\ resp = RedirectResponse
                      (construct_redirect_uri Demo.lib uri
                         (ErrorResponse.model_dump
                            (ErrorResponse.mk access_denied "no" None (state s'))))
                      302 [("Cache-Control", "no-store")])
      \/ (~ (exists uri c, redirect_uri s' = Some uri /\ client s' = Loaded c)
          /\ resp = PydanticJSONResponse 400
                      (ErrorResponse.mk access_denied "no" None (state s'))
                      [("Cache-Control", "no-store")])).
Proof.
  intros s s' resp. split; [reflexivity|].
  apply (error_channel_decision Demo.lib Demo.provider access_denied "no" true
           s s' resp).
  reflexivity.
Defined.

(** C4 on a request from a client nobody registered, with a recoverable
    redirect URI and state. *)
Lemma unknown_client_direct_response_witness :
  authorization_handler Demo.lib Demo.provider Demo.unknown_client
  = Return (PydanticJSONResponse 400
              (ErrorResponse.mk invalid_request "Client ID 'nobody' not found"
                 None (Some "s1"))
              [("Cache-Control", "no-store")]).
Proof.
  apply (unknown_client_direct_response Demo.lib Demo.provider
           Demo.unknown_client (query_params Demo.unknown_client)
           Demo.unknown_client_fields); reflexivity.
Defined.


(** C6 on a request without [redirect_uri] from a client with two
    registered URIs. *)
Lemma redirect_failure_direct_response_witness :
  exists message,
    validate_redirect_uri None Demo.bare = Raise (InvalidRequestError message)
    /\ authorization_handler Demo.lib Demo.provider Demo.two_uris_none_given
       = Return (PydanticJSONResponse 400
                   (ErrorResponse.mk invalid_request message None (Some "s1"))
                   [("Cache-Control", "no-store")]).
Proof.
  apply (redirect_failure_direct_response Demo.lib Demo.provider
           Demo.two_uris_none_given (query_params Demo.two_uris_none_given)
           Demo.two_uris_fields Demo.bare); try reflexivity.
  simpl. discriminate.
Defined.


(** C8 on the bad-scope request. *)
Lemma sole_redirect_uri_scope_error_witness :
  validate_redirect_uri None Demo.app = Return "https://a.example/cb"
  /\ exists rejected,
       In rejected ["read"; "exec"]
       /\ ~ In rejected ["read"; "write"]
       /\ authorization_handler Demo.lib Demo.provider Demo.bad_scope
          = Return (RedirectResponse
                      (construct_redirect_uri Demo.lib "https://a.example/cb"
                         [("error", "invalid_scope");
                          ("error_description",
                           "Client was not registered with scope " ++ rejected);
                          ("state", "s1")])
                      302 [("Cache-Control", "no-store")]).
Proof.
  apply (sole_redirect_uri_scope_error Demo.lib Demo.provider Demo.bad_scope
           (query_params Demo.bad_scope) Demo.bad_scope_fields Demo.app
           "https://a.example/cb" "read exec" "exec"); try reflexivity.
  - simpl. auto.
  - simpl. intros [H|[H|[]]]; discriminate.
Defined.

(** C9 on a valid request for an unknown token, with a hook that drops
    the token and with one that refuses it, and on a wrong secret. *)
Lemma revocation_hook_after_authentication_witness :
  let run hook body :=
    revocation_handler Demo.model_validate_json
      (fun errors => String.concat ", " (map loc errors))
      Demo.client_authenticator (Some hook) body Demo.world in
  fst (run Demo.revoke_token "app:s3cret:unknown-token")
  = Return (EmptyResponse 200
              [("Cache-Control", "no-store"); ("Pragma", "no-cache")])
  /\ fst (run Demo.strict_revoke_token "app:s3cret:unknown-token")
     = Raise (OtherException "unknown token")
  /\ fst (run Demo.revoke_token "app:wrong:t1")
     = Raise (OtherException "invalid_client")
  /\ store (snd (run Demo.revoke_token "app:wrong:t1")) = ["t1"; "t2"].
Proof.
  intros run.
  pose proof (fun hook =>
                revocation_hook_after_authentication Demo.RevocationRequest
                  Demo.model_validate_json
                  (fun errors => String.concat ", " (map loc errors))
                  Demo.client_authenticator (list string) (Some hook)) as H.
  split; [|split; [|split]].
  - destruct (H Demo.revoke_token "app:s3cret:unknown-token" Demo.world)
      as (_ & _ & Hok & _).
    exact (proj2 (proj2 (Hok (Demo.mkRevocationRequest "unknown-token" "app"
                                "s3cret")
                           Demo.app eq_refl eq_refl))).
  - destruct (H Demo.strict_revoke_token "app:s3cret:unknown-token" Demo.world)
      as (_ & _ & Hok & _).
    exact (proj2 (proj2 (Hok (Demo.mkRevocationRequest "unknown-token" "app"
                                "s3cret")
                           Demo.app eq_refl eq_refl))).
  - destruct (H Demo.revoke_token "app:wrong:t1" Demo.world) as (_ & Hfail & _).
    exact (proj1 (Hfail (Demo.mkRevocationRequest "t1" "app" "wrong")
                    (OtherException "invalid_client") eq_refl eq_refl)).
  - destruct (H Demo.revoke_token "app:wrong:t1" Demo.world) as (_ & Hfail & _).
    exact (proj1 (proj2 (Hfail (Demo.mkRevocationRequest "t1" "app" "wrong")
                           (OtherException "invalid_client") eq_refl eq_refl))).
Defined.

(** C10 on the client registered without scope. *)
Lemma unscoped_client_accepts_only_omitted_scope_witness :
  validate_scope (Some EmptyString) Demo.bare
  = Raise (InvalidRequestError "Client was not registered with scope ")
  /\ validate_scope None Demo.bare = Return None.
Proof.
  destruct (unscoped_client_accepts_only_omitted_scope Demo.bare eq_refl)
    as (_ & _ & Hempty & Hnone & _).
  split; assumption.
Defined.

(** * Further properties of the validators *)

Lemma concat_split (sep : ascii) (s : string) :
  String.concat (String sep EmptyString) (split sep s) = s.
Proof.
  induction s as [|c rest IH]; simpl; [reflexivity|].
  destruct (Ascii.eqb c sep) eqn:Hc.
  - apply Ascii.eqb_eq in Hc. subst c.
    destruct (split sep rest) as [|piece pieces] eqn:Hsplit.
    + now elim (split_not_nil sep rest).
    + simpl in *. now rewrite IH.
  - destruct (split sep rest) as [|piece pieces] eqn:Hsplit.
    + now elim (split_not_nil sep rest).
    + destruct pieces; simpl in *; now rewrite IH.
Qed.

Lemma first_not_in_cut (allowed xs : list string) (x : string) :
  first_not_in allowed xs = Some x ->
  exists before after,
    xs = (before ++ x :: after)%list
    /\ (forall t, In t before -> In t allowed)
    /\ ~ In x allowed.
Proof.
  induction xs as [|y ys IH]; simpl; [discriminate|].
  destruct (mem y allowed) eqn:Hy.
  - intros H. destruct (IH H) as (before & after & -> & Hbefore & Hout).
    exists (y :: before), after. repeat apply conj; auto.
    intros t [<-|Ht]; auto. now apply mem_In.
  - intros H. injection H as <-. exists [], ys. repeat apply conj; auto.
    + intros t [].
    + intros Hin. apply mem_In in Hin. congruence.
Qed.

(** An empty piece after a separator shows among the pieces that follow
    the first one. *)
Lemma empty_piece_after (sep : ascii) (a b : string) :
  In EmptyString (split sep b) ->
  In EmptyString (tl (split sep (a ++ String sep b))).
Proof.
  intros Hb. induction a as [|c rest IH]; simpl.
  - now rewrite Ascii.eqb_refl.
  - destruct (Ascii.eqb c sep).
    + simpl. destruct (split sep (rest ++ String sep b)); simpl in *; auto.
    + destruct (split sep (rest ++ String sep b)); simpl in *; auto.
Qed.

(** X1. [validate_scope] accepts a requested scope exactly when every one
    of its space-separated tokens is among the client's allowed scopes,
    and it then returns those tokens as they were requested: same order,
    repetitions kept. *)
Theorem validate_scope_accepts_iff (requested : string) (c : Client)
    (scopes : option (list string)) :
  validate_scope (Some requested) c = Return scopes
  <-> scopes = Some (split space requested)
      /\ forall t, In t (split space requested) ->
                   In t (OAuthClientInformationFull.allowed_scopes c).
Proof.
  unfold validate_scope.
  destruct (first_not_in (OAuthClientInformationFull.allowed_scopes c)
              (split space requested)) as [rejected|] eqn:Hfirst.
  - split; [discriminate|]. intros [_ Hall].
    destruct (first_not_in_Some _ _ _ Hfirst) as [Hin Hout].
    now elim Hout; apply Hall.
  - split.
    + intros H. injection H as <-. split; [reflexivity|].
      now apply first_not_in_None.
    + intros [-> _]. reflexivity.
Qed.

(** X2. When [validate_scope] rejects, the error names the first
    requested token that is not allowed: every token before it is
    allowed. *)
Theorem validate_scope_names_first_rejected (requested : string) (c : Client)
    (e : Exception) :
  validate_scope (Some requested) c = Raise e ->
  exists before rejected after,
    split space requested = (before ++ rejected :: after)%list
    /\ (forall t, In t before ->
                  In t (OAuthClientInformationFull.allowed_scopes c))
    /\ ~ In rejected (OAuthClientInformationFull.allowed_scopes c)
    /\ e = InvalidRequestError
             ("Client was not registered with scope " ++ rejected).
Proof.
  unfold validate_scope.
  destruct (first_not_in (OAuthClientInformationFull.allowed_scopes c)
              (split space requested)) as [rejected|] eqn:Hfirst;
    [|discriminate].
  intros H. injection H as <-.
  destruct (first_not_in_cut _ _ _ Hfirst) as (before & after & Hcut & Hok & Hout).
  exists before, rejected, after. auto.
Qed.

(** X3. The tokens [validate_scope] returns, joined by single spaces, are
    the requested scope string again. *)
Theorem validate_scope_join (requested : option string) (c : Client)
    (scopes : list string) :
  validate_scope requested c = Return (Some scopes) ->
  requested = Some (String.concat " " scopes).
Proof.
  destruct requested as [r|]; [|discriminate].
  unfold validate_scope.
  destruct (first_not_in _ _); [discriminate|].
  intros H. injection H as <-. f_equal. symmetry. apply (concat_split space).
Qed.

(** X4. A client may always request the scope string it registered, and
    both validators hand back its tokens. *)
Theorem registered_scope_accepted (c : Client) (registered : string) :
  OAuthClientInformationFull.scope c = Some registered ->
  validate_scope (Some registered) c = Return (Some (split space registered))
  /\ OAuthClientInformationFull.validate_scope c (Some registered)
     = Return (Some (split space registered)).
Proof.
  intros Hreg.
  assert (first_not_in (OAuthClientInformationFull.allowed_scopes c)
            (split space registered) = None) as Hnone.
  { apply first_not_in_None. unfold OAuthClientInformationFull.allowed_scopes.
    rewrite Hreg. auto. }
  unfold validate_scope, OAuthClientInformationFull.validate_scope.
  now rewrite Hnone.
Qed.

(** X5. Unless the empty token is among the client's allowed scopes, a
    requested scope that starts with a space, ends with a space or holds
    two spaces in a row is rejected. *)
Theorem stray_space_rejected (c : Client) (a b : string) :
  ~ In EmptyString (OAuthClientInformationFull.allowed_scopes c) ->
  validate_scope (Some (" " ++ a)) c
  = Raise (InvalidRequestError "Client was not registered with scope ")
  /\ (exists e, validate_scope (Some (a ++ " ")) c = Raise e)
  /\ (exists e, validate_scope (Some (a ++ "  " ++ b)) c = Raise e).
Proof.
  intros Hout.
  assert (forall requested,
             In EmptyString (split space requested) ->
             exists e, validate_scope (Some requested) c = Raise e) as Hreject.
  { intros requested Hin.
    unfold validate_scope.
    destruct (first_not_in (OAuthClientInformationFull.allowed_scopes c)
                (split space requested)) eqn:Hfirst; [eauto|].
    elim Hout. exact (proj1 (first_not_in_None _ _) Hfirst _ Hin). }
  repeat apply conj.
  - unfold validate_scope. simpl.
    destruct (mem EmptyString (OAuthClientInformationFull.allowed_scopes c))
      eqn:Hmem; [|reflexivity].
    apply mem_In in Hmem. contradiction.
  - apply Hreject.
    pose proof (empty_piece_after space a EmptyString) as H.
    simpl in H. specialize (H (or_introl eq_refl)).
    change (a ++ " ") with (a ++ String space EmptyString).
    destruct (split space (a ++ String space EmptyString));
      simpl in *; [contradiction|auto].
  - apply Hreject.
    pose proof (empty_piece_after space a (String space b)) as H.
    simpl in H. specialize (H (or_introl eq_refl)).
    change (a ++ "  " ++ b) with (a ++ String space (String space b)).
    destruct (split space (a ++ String space (String space b)));
      simpl in *; [contradiction|auto].
Qed.

(** X6. The module-level validators of authorize.py and the methods of
    [OAuthClientMetadata] decide alike: they return the same value, or
    raise with the same message, the former as [InvalidRequestError], the
    latter as [InvalidScopeError] and [InvalidRedirectUriError]. *)
Theorem validators_agree (c : Client) (requested : option string)
    (candidate : option AnyHttpUrl) :
  match validate_scope requested c,
        OAuthClientInformationFull.validate_scope c requested with
  | Return a, Return b => a = b
  | Raise (InvalidRequestError m), Raise (InvalidScopeError m') => m = m'
  | _, _ => False
  end
  /\ match validate_redirect_uri candidate c,
           OAuthClientInformationFull.validate_redirect_uri c candidate with
     | Return a, Return b => a = b
     | Raise (InvalidRequestError m), Raise (InvalidRedirectUriError m') => m = m'
     | _, _ => False
     end.
Proof.
  split.
  - unfold validate_scope, OAuthClientInformationFull.validate_scope.
    destruct requested as [r|]; [|reflexivity].
    destruct (first_not_in _ _); reflexivity.
  - unfold validate_redirect_uri, OAuthClientInformationFull.validate_redirect_uri.
    destruct candidate as [uri|].
    + destruct (mem uri _); reflexivity.
    + destruct (OAuthClientInformationFull.redirect_uris c) as [|only [|]];
        reflexivity.
Qed.

(** X7. [validate_redirect_uri] returns a URI exactly in two cases: the
    request's candidate, when it is one of the client's registered URIs;
    or, without a candidate, the client's registered URI when there is
    exactly one. *)
Theorem validate_redirect_uri_accepts_iff (candidate : option AnyHttpUrl)
    (c : Client) (uri : AnyHttpUrl) :
  validate_redirect_uri candidate c = Return uri
  <-> (candidate = Some uri
       /\ In uri (OAuthClientInformationFull.redirect_uris c))
      \/ (candidate = None
          /\ OAuthClientInformationFull.redirect_uris c = [uri]).
Proof.
  unfold validate_redirect_uri. destruct candidate as [given|].
  - destruct (mem given (OAuthClientInformationFull.redirect_uris c)) eqn:Hmem.
    + apply mem_In in Hmem. split.
      * intros H. injection H as <-. auto.
      * intros [[H _] | [H _]]; [|discriminate]. now injection H as <-.
    + split; [discriminate|].
      intros [[H Hin] | [H _]]; [|discriminate]. injection H as ->.
      apply mem_In in Hin. congruence.
  - destruct (OAuthClientInformationFull.redirect_uris c) as [|only [|]].
    + split; [discriminate|]. intros [[H _] | [_ H]]; discriminate.
    + split.
      * intros H. injection H as <-. auto.
      * intros [[H _] | [_ H]]; [discriminate|]. now injection H as <-.
    + split; [discriminate|]. intros [[H _] | [_ H]]; discriminate.
Qed.

(** X8. A URI that [validate_redirect_uri] returned passes validation
    again when it is presented as the candidate. *)
Theorem validate_redirect_uri_again (candidate : option AnyHttpUrl)
    (c : Client) (uri : AnyHttpUrl) :
  validate_redirect_uri candidate c = Return uri ->
  validate_redirect_uri (Some uri) c = Return uri.
Proof.
  intros H. destruct (validate_redirect_uri_member _ _ _ H) as [Hin _].
  unfold validate_redirect_uri. apply mem_In in Hin. now rewrite Hin.
Qed.

(** * Further properties of request parsing and of the report *)

Section ParsingProperties.

Variable lib : Imports.

Lemma literal_inr (field lit : string) (default : option string)
    (p : MultiDict) (v : string) :
  AuthorizationRequest.literal field lit default p = inr v ->
  (get field p = Some (Str lit) /\ v = lit)
  \/ (get field p = None /\ default = Some v).
Proof.
  unfold AuthorizationRequest.literal.
  destruct (get field p) as [[s|]|]; try discriminate.
  - destruct (String.eqb s lit) eqn:Heq; [|discriminate].
    apply String.eqb_eq in Heq. subst s. intros H. injection H as <-. auto.
  - destruct default; [|discriminate]. intros H. injection H as <-. auto.
Qed.

(** X9. A request that parses has [response_type] equal to [code], given
    as such in the parameters, and [code_challenge_method] equal to
    [S256], given as such or left out; its [client_id] and
    [code_challenge] are the raw strings of the parameters. *)
Theorem parsed_request_invariants (p : MultiDict)
    (req : AuthorizationRequest.t) :
  AuthorizationRequest.model_validate lib p = Return req ->
  AuthorizationRequest.response_type req = "code"
  /\ get "response_type" p = Some (Str "code")
  /\ AuthorizationRequest.code_challenge_method req = "S256"
  /\ (get "code_challenge_method" p = Some (Str "S256")
      \/ get "code_challenge_method" p = None)
  /\ get "client_id" p = Some (Str (AuthorizationRequest.client_id req))
  /\ get "code_challenge" p
     = Some (Str (AuthorizationRequest.code_challenge req)).
Proof.
  intros Hok.
  destruct (model_validate_cases lib p)
    as [(a & b & c & d & e & f & g & Ha & _ & Hc & Hd & He & _ & _ & Heq) | Hraise];
    [|congruence].
  rewrite Heq in Hok. injection Hok as <-. simpl.
  apply literal_inr in Hc. apply literal_inr in He.
  apply required_str_inr in Ha. apply required_str_inr in Hd.
  destruct Hc as [[Hc ->] | [_ Hc]]; [|discriminate].
  destruct He as [[He ->] | [He Hdefault]].
  - repeat apply conj; auto.
  - injection Hdefault as <-. repeat apply conj; auto.
Qed.

Definition field_names : list string :=
  ["client_id"; "redirect_uri"; "response_type"; "code_challenge";
   "code_challenge_method"; "state"; "scope"].

Lemma errors_of_field (A : Type) (r : ErrorDetails + A) (field : string) :
  (forall e, r = inl e -> loc e = field) ->
  map loc (AuthorizationRequest.errors_of r) = []
  \/ map loc (AuthorizationRequest.errors_of r) = [field].
Proof.
  intros Hloc. destruct r as [e|v]; simpl; [|now left].
  right. now rewrite (Hloc e eq_refl).
Qed.

Lemma no_errors_is_inr (A : Type) (r : ErrorDetails + A) :
  map loc (AuthorizationRequest.errors_of r) = [] -> exists v, r = inr v.
Proof. destruct r as [e|v]; simpl; [discriminate|eauto]. Qed.

(** X10. The [ValidationError] raised for a request that does not parse
    is never empty, reports no field twice, and reports only fields of
    [AuthorizationRequest]. *)
Theorem validation_errors_shape (p : MultiDict) (e : Exception) :
  AuthorizationRequest.model_validate lib p = Raise e ->
  exists errors,
    e = ValidationError errors
    /\ errors <> []
    /\ NoDup (map loc errors)
    /\ forall entry, In entry errors -> In (loc entry) field_names.
Proof.
  intros Hraise.
  destruct (model_validate_cases lib p)
    as [(a & b & c & d & e' & f & g & _ & _ & _ & _ & _ & _ & _ & Heq) | Heq];
    [congruence|].
  rewrite Heq in Hraise. injection Hraise as <-.
  eexists. split; [reflexivity|].
  pose proof (errors_of_field _ _ "client_id" (required_str_loc "client_id" p)) as H1.
  pose proof (errors_of_field _ _ "redirect_uri"
                (optional_url_loc lib "redirect_uri" p)) as H2.
  pose proof (errors_of_field _ _ "response_type"
                (literal_loc "response_type" "code" None p)) as H3.
  pose proof (errors_of_field _ _ "code_challenge"
                (required_str_loc "code_challenge" p)) as H4.
  pose proof (errors_of_field _ _ "code_challenge_method"
                (literal_loc "code_challenge_method" "S256" (Some "S256") p)) as H5.
  pose proof (errors_of_field _ _ "state" (optional_str_loc "state" p)) as H6.
  pose proof (errors_of_field _ _ "scope" (optional_str_loc "scope" p)) as H7.
  assert (forall l, map loc l <> [] -> l <> []) as Hnonempty
      by (intros l H ->; now apply H).
  split; [|split].
  - apply Hnonempty. rewrite !map_app. intros Hempty.
    repeat match goal with
           | H : (_ ++ _)%list = [] |- _ => apply app_eq_nil in H; destruct H
           end.
    repeat match goal with
           | H : map loc (AuthorizationRequest.errors_of _) = [] |- _ =>
               apply no_errors_is_inr in H; destruct H
           end.
    unfold AuthorizationRequest.model_validate in Heq.
    repeat match goal with
           | H : _ = inr _ |- _ => rewrite H in Heq; clear H
           end.
    discriminate.
  - rewrite !map_app.
    destruct H1 as [-> | ->], H2 as [-> | ->], H3 as [-> | ->],
      H4 as [-> | ->], H5 as [-> | ->], H6 as [-> | ->], H7 as [-> | ->];
      simpl;
      repeat (constructor;
              [simpl; intros Hin;
               repeat (destruct Hin as [Hin|Hin]; [discriminate|]);
               exact Hin|]);
      constructor.
  - intros entry Hin. apply (in_map loc) in Hin. rewrite !map_app in Hin.
    repeat (apply in_app_or in Hin; destruct Hin as [Hin|Hin]);
      match goal with
      | H : map loc (AuthorizationRequest.errors_of _) = [] \/ _,
        Hin : In _ (map loc (AuthorizationRequest.errors_of _)) |- _ =>
          first [ destruct H as [H | H]; rewrite H in Hin;
                  [contradiction|];
                  destruct Hin as [<- | []]; simpl; tauto ]
      end.
Qed.

End ParsingProperties.

Lemma ErrorCode_str_injective (a b : ErrorCode) :
  ErrorCode_str a = ErrorCode_str b -> a = b.
Proof. destruct a, b; simpl; intros H; try reflexivity; discriminate. Qed.

(** X11. A report is determined by its dump: two [ErrorResponse] values
    with the same [model_dump(exclude_none=True)] have the same error
    code, description, error URI and state. *)
Theorem model_dump_injective (a b : ErrorResponse.t) :
  ErrorResponse.model_dump a = ErrorResponse.model_dump b -> a = b.
Proof.
  destruct a as [ea da ua sa], b as [eb db ub sb].
  unfold ErrorResponse.model_dump, ErrorResponse.entry. simpl.
  intros H. injection H as Hcode Hdesc Hrest.
  apply ErrorCode_str_injective in Hcode. subst eb db.
  destruct ua, ub, sa, sb; simpl in Hrest; try discriminate;
    try (inversion Hrest; subst); reflexivity.
Qed.

(** * Further properties of the authorization handler *)

Section ReportingProperties.

Variable lib : Imports.
Variable provider : OAuthServerProvider.

#[local] Arguments validate_redirect_uri : simpl never.
#[local] Arguments validate_scope : simpl never.
#[local] Arguments AuthorizationRequest.model_validate : simpl never.
#[local] Arguments error_response : simpl never.

Ltac run_more :=
  unfold bind, read, ret, raise, lift, try_except, assign_client,
    assign_redirect_uri, assign_state, assign_params; simpl.

(** The recovery steps as functions of the variables. *)

(** The value [client] has after the last-ditch lookup, or the exception
    the directory raises. *)
Definition recovered_slot (attempt : bool) (s : Locals) : Result ClientSlot :=
  match client s, attempt with
  | Unset, true =>
      match best_effort_extract_string "client_id" (params s) with
      | None => Return Unset
      | Some id =>
          if String.eqb id EmptyString then Return Blank
          else match get_client provider id with
               | Return found => Return (slot_of_lookup found)
               | Raise e => Raise e
               end
      end
  | slot, _ => Return slot
  end.

(** What parsing and validating the raw redirect URI for client [c]
    gives: the URI to store, nothing to store, or the exception that
    leaves the call. *)
Definition revalidate (p : option MultiDict) (c : Client)
  : Result (option AnyHttpUrl) :=
  let absent :=
    match p with
    | Some d => negb (contains "redirect_uri" d)
    | None => false
    end in
  let raw :=
    if absent then Return None
    else match AnyHttpUrlModel_model_validate lib
                 (best_effort_extract_string "redirect_uri" p) with
         | Return url => Return (Some url)
         | Raise e => Raise e
         end in
  match raw with
  | Raise e => Raise e
  | Return raw_redirect_uri =>
      match validate_redirect_uri raw_redirect_uri c with
      | Return uri => Return (Some uri)
      | Raise (ValidationError _) | Raise (InvalidRequestError _) => Return None
      | Raise e => Raise e
      end
  end.

(** The value [redirect_uri] has after the last-ditch recovery. *)
Definition recovered_uri (s : Locals) : Result (option AnyHttpUrl) :=
  match redirect_uri s, client s with
  | None, Loaded c => revalidate (params s) c
  | held, _ => Return held
  end.

Definition filled_state (s : Locals) : option string :=
  match state s with
  | Some x => Some x
  | None => best_effort_extract_string "state" (params s)
  end.

Lemma load_client_eq (attempt : bool) (s : Locals) :
  load_client provider attempt s
  = match recovered_slot attempt s with
    | Return slot =>
        (Return tt, mkLocals (state s) (redirect_uri s) slot (params s))
    | Raise e => (Raise e, s)
    end.
Proof.
  destruct s as [st ru cl p]. unfold load_client, recovered_slot. run_more.
  destruct cl; try reflexivity. destruct attempt; [|reflexivity].
  unfold best_effort_extract_string.
  destruct p as [d|]; [|reflexivity].
  destruct (get "client_id" d) as [[id|file]|]; try reflexivity.
  destruct (String.eqb id EmptyString); [reflexivity|].
  destruct (get_client provider id) as [found|e]; reflexivity.
Qed.

Lemma load_redirect_uri_eq (s : Locals) :
  load_redirect_uri lib s
  = match recovered_uri s with
    | Return held =>
        (Return tt, mkLocals (state s) held (client s) (params s))
    | Raise e => (Raise e, s)
    end.
Proof.
  destruct s as [st ru cl p].
  unfold load_redirect_uri, recovered_uri, revalidate. run_more.
  destruct ru as [uri|]; [reflexivity|].
  destruct cl as [| |c]; try reflexivity.
  unfold AnyHttpUrlModel_model_validate, contains, best_effort_extract_string.
  destruct p as [d|]; simpl; [|reflexivity].
  destruct (get "redirect_uri" d) as [[text|file]|]; simpl; try reflexivity.
  - destruct (parse_url lib text) as [url|]; [|reflexivity].
    destruct (validate_redirect_uri (Some url) c) as [uri|[]]; reflexivity.
  - destruct (validate_redirect_uri None c) as [uri|[]]; reflexivity.
Qed.

Lemma error_response_eq (error : ErrorCode) (description : string)
    (attempt : bool) (s : Locals) :
  error_response lib provider error description attempt s
  = match recovered_slot attempt s with
    | Raise e => (Raise e, s)
    | Return slot =>
        let s1 := mkLocals (state s) (redirect_uri s) slot (params s) in
        match recovered_uri s1 with
        | Raise e => (Raise e, s1)
        | Return held =>
            let s3 := mkLocals (filled_state s) held slot (params s) in
            (Return (report lib error description s3), s3)
        end
    end.
Proof.
  unfold error_response.
  unfold bind at 1. rewrite load_client_eq.
  destruct (recovered_slot attempt s) as [slot|e]; [|reflexivity].
  unfold bind at 1. rewrite load_redirect_uri_eq.
  cbv zeta.
  destruct (recovered_uri _) as [held|e]; [|reflexivity].
  unfold bind at 1. rewrite load_state_run. simpl.
  apply emit_run.
Qed.


Lemma recovered_slot_keeps (attempt : bool) (s : Locals) (slot : ClientSlot)
    (c : Client) :
  recovered_slot attempt s = Return slot ->
  client s = Loaded c -> slot = Loaded c.
Proof.
  unfold recovered_slot. intros H Hc. rewrite Hc in H. congruence.
Qed.


(** X12. [error_response] only fills in what is missing: it never
    changes the parameters, and a state, a redirect URI or a client that
    is already held is still held afterwards, whether the call returns or
    raises. *)
Theorem error_response_keeps_context (error : ErrorCode)
    (description : string) (attempt : bool) (s s' : Locals)
    (outcome : Result Response) :
  error_response lib provider error description attempt s = (outcome, s') ->
  params s' = params s
  /\ (forall x, state s = Some x -> state s' = Some x)
  /\ (forall uri, redirect_uri s = Some uri -> redirect_uri s' = Some uri)
  /\ (forall c, client s = Loaded c -> client s' = Loaded c).
Proof.
  rewrite error_response_eq.
  destruct (recovered_slot attempt s) as [slot|e0] eqn:Hslot.
  - cbv zeta.
    pose proof (recovered_slot_keeps attempt s slot) as Hclient.
    destruct (recovered_uri _) as [held|e] eqn:Huri.
    + intros H. injection H as _ <-. simpl. repeat apply conj; auto.
      * intros x Hx. unfold filled_state. now rewrite Hx.
      * intros uri Hu. unfold recovered_uri in Huri. simpl in Huri.
        rewrite Hu in Huri. congruence.
    + intros H. injection H as _ <-. simpl. repeat apply conj; auto.
  - intros H. injection H as _ <-. auto.
Qed.


(** X14. Without a loaded client there is no redirect: when the client
    is unset and the last-ditch lookup is switched off, or when the
    client is the blank left by an empty [client_id], [error_response]
    returns the direct 400 report, whatever the parameters hold. *)
Theorem error_response_without_client (error : ErrorCode)
    (description : string) (attempt : bool) (s : Locals) :
  (client s = Unset /\ attempt = false) \/ client s = Blank ->
  exists s',
    error_response lib provider error description attempt s
    = (Return (PydanticJSONResponse 400
                 (ErrorResponse.mk error description None (filled_state s))
                 [("Cache-Control", "no-store")]),
       s')
    /\ client s' = client s.
Proof.
  intros Hslot. rewrite error_response_eq.
  assert (recovered_slot attempt s = Return (client s)
          /\ forall c, client s <> Loaded c) as [-> Hnot].
  { unfold recovered_slot.
    destruct Hslot as [[-> ->] | ->]; split; try reflexivity; discriminate. }
  cbv zeta. unfold recovered_uri. simpl.
  destruct (redirect_uri s) as [uri|] eqn:Hru;
    destruct (client s) as [| |c] eqn:Hc;
    try (now elim (Hnot c));
    (eexists; split; [unfold report; simpl; reflexivity | reflexivity]).
Qed.

(** X15. Every response the handler returns is a 302 redirect or a 400
    JSON report, and carries [Cache-Control: no-store] and no other
    header. *)
Theorem responses_are_not_stored (request : Request) (resp : Response) :
  authorization_handler lib provider request = Return resp ->
  (exists target,
      resp = RedirectResponse target 302 [("Cache-Control", "no-store")])
  \/ (exists error_resp,
         resp = PydanticJSONResponse 400 error_resp
                  [("Cache-Control", "no-store")]).
Proof.
  intros Hret.
  destruct (handler_outcome lib provider request resp Hret)
    as [(p & req & c & uri & scopes & next & _ & _ & _ & _ & _ & _ & _ & ->)
       | (error & description & s & -> & _)].
  - left. eauto.
  - unfold report.
    destruct (redirect_uri s); [destruct (client s)|]; eauto.
Qed.

(** X16. When the request parses, the client is known, the redirect URI
    and the scope validate, and the provider answers, having been given
    the request's state, the validated scope tokens, the code challenge
    and the validated redirect URI: if the answer can be set as a header
    value, the handler redirects to it; if it cannot, setting the
    [location] header raises, and the catch-all reports [server_error] by
    redirecting to the validated redirect URI, with the request's
    state. *)
Theorem delegation_redirects_to_provider_answer (request : Request)
    (p : MultiDict) (req : AuthorizationRequest.t) (c : Client)
    (uri : AnyHttpUrl) (scopes : option (list string)) (next : string) :
  decoded request = Some p ->
  AuthorizationRequest.model_validate lib p = Return req ->
  get_client provider (AuthorizationRequest.client_id req) = Return (Some c) ->
  validate_redirect_uri (AuthorizationRequest.redirect_uri req) c = Return uri ->
  validate_scope (AuthorizationRequest.scope req) c = Return scopes ->
  authorize provider c
    (mkAuthorizationParams (AuthorizationRequest.state req) scopes
       (AuthorizationRequest.code_challenge req) uri) = Return next ->
  authorization_handler lib provider request
  = Return (if header_encodable lib next
            then RedirectResponse next 302 [("Cache-Control", "no-store")]
            else RedirectResponse
                   (construct_redirect_uri lib uri
                      (ErrorResponse.model_dump
                         (ErrorResponse.mk server_error
                            "An unexpected error occurred" None
                            (AuthorizationRequest.state req))))
                   302 [("Cache-Control", "no-store")]).
Proof.
  intros Hp Hreq Hc Hval Hscope Hnext.
  destruct (model_validate_fields lib p req Hreq) as (_ & _ & Hstate & _).
  unfold authorization_handler.
  rewrite handler_run_caught,
    (body_delegation lib provider request p req c uri scopes
       Hp Hreq Hc Hval Hscope), Hnext.
  destruct (header_encodable lib next); [reflexivity|].
  simpl. rewrite error_response_settled.
  - reflexivity.
  - apply load_client_keeps. left. discriminate.
  - apply load_redirect_uri_keeps. left. discriminate.
  - exact Hstate.
Qed.

(** X17. When every check passes and the provider's authorization
    decision raises, the handler reports [server_error] by redirecting to
    the validated redirect URI, with the request's state. *)
Theorem provider_failure_redirects (request : Request) (p : MultiDict)
    (req : AuthorizationRequest.t) (c : Client) (uri : AnyHttpUrl)
    (scopes : option (list string)) (e : Exception) :
  decoded request = Some p ->
  AuthorizationRequest.model_validate lib p = Return req ->
  get_client provider (AuthorizationRequest.client_id req) = Return (Some c) ->
  validate_redirect_uri (AuthorizationRequest.redirect_uri req) c = Return uri ->
  validate_scope (AuthorizationRequest.scope req) c = Return scopes ->
  authorize provider c
    (mkAuthorizationParams (AuthorizationRequest.state req) scopes
       (AuthorizationRequest.code_challenge req) uri) = Raise e ->
  authorization_handler lib provider request
  = Return (RedirectResponse
              (construct_redirect_uri lib uri
                 (ErrorResponse.model_dump
                    (ErrorResponse.mk server_error
                       "An unexpected error occurred" None
                       (AuthorizationRequest.state req))))
              302 [("Cache-Control", "no-store")]).
Proof.
  intros Hp Hreq Hc Hval Hscope Hfail.
  destruct (model_validate_fields lib p req Hreq) as (_ & _ & Hstate & _).
  unfold authorization_handler.
  rewrite handler_run_caught,
    (body_delegation lib provider request p req c uri scopes
       Hp Hreq Hc Hval Hscope), Hfail.
  simpl. rewrite error_response_settled.
  - reflexivity.
  - apply load_client_keeps. left. discriminate.
  - apply load_redirect_uri_keeps. left. discriminate.
  - exact Hstate.
Qed.

(** X18. When the form of a request that is not a GET cannot be decoded,
    the handler answers with the direct 400 report [server_error], which
    carries no state. *)
Theorem undecodable_form_reported (request : Request) :
  decoded request = None ->
  authorization_handler lib provider request
  = Return (PydanticJSONResponse 400
              (ErrorResponse.mk server_error "An unexpected error occurred"
                 None None)
              [("Cache-Control", "no-store")]).
Proof.
  intros Hnone.
  destruct (body_undecodable lib provider request Hnone) as [e He].
  unfold authorization_handler. rewrite handler_run_caught, He.
  reflexivity.
Qed.

(** X19. The handler reads nothing of the request but the parameters it
    decodes: the query of a GET, the form of any other method.  Two
    requests with the same decoded parameters get the same outcome, so a
    query string sent along with a form is ignored. *)
Theorem handler_reads_decoded_parameters (r1 r2 : Request) (p : MultiDict) :
  decoded r1 = Some p ->
  decoded r2 = Some p ->
  authorization_handler lib provider r1 = authorization_handler lib provider r2.
Proof.
  intros H1 H2.
  unfold authorization_handler, authorization_handler_run, try_except.
  assert (handler_body lib provider r1 initial
          = handler_body lib provider r2 initial) as ->.
  { unfold handler_body. unfold bind at 1. unfold bind at 3.
    unfold lift. now rewrite (decoded_Some r1 p H1), (decoded_Some r2 p H2). }
  reflexivity.
Qed.

Lemma filled_state_parsed (p : MultiDict) :
  filled_state (parsed p) = best_effort_extract_string "state" (Some p).
Proof.
  unfold filled_state, parsed. cbn [state params].
  destruct (best_effort_extract_string "state" (Some p)); reflexivity.
Qed.

(** The raw redirect URI as a candidate: none when the parameters have no
    [redirect_uri], the parsed URL when they have a string that is one. *)
Definition raw_candidate (p : MultiDict) (raw : option AnyHttpUrl) : Prop :=
  match raw with
  | None => get "redirect_uri" p = None
  | Some candidate =>
      exists text, get "redirect_uri" p = Some (Str text)
                   /\ parse_url lib text = Some candidate
  end.

Lemma revalidate_candidate (p : MultiDict) (raw : option AnyHttpUrl)
    (c : Client) :
  raw_candidate p raw ->
  revalidate (Some p) c
  = match validate_redirect_uri raw c with
    | Return uri => Return (Some uri)
    | Raise _ => Return None
    end.
Proof.
  unfold raw_candidate, revalidate, contains, AnyHttpUrlModel_model_validate,
    best_effort_extract_string.
  destruct raw as [candidate|].
  - intros (text & -> & Hparse). simpl. rewrite Hparse.
    destruct (validate_redirect_uri (Some candidate) c) as [uri|e] eqn:Hval;
      [reflexivity|].
    now destruct (validate_redirect_uri_raises _ _ _ Hval) as [message ->].
  - intros ->. simpl.
    destruct (validate_redirect_uri None c) as [uri|e] eqn:Hval;
      [reflexivity|].
    now destruct (validate_redirect_uri_raises _ _ _ Hval) as [message ->].
Qed.

(** X20. A request that does not parse is still answered by redirect when
    the raw parameters allow it: if the directory knows the raw
    [client_id] and the raw redirect URI (a parsable one, or none) passes
    [validate_redirect_uri] for that client, the parse error goes to the
    validated URI as a 302; if it does not pass, the parse error is the
    direct 400 report.  Either way the report carries the code chosen
    from the validation errors and the raw state. *)
Theorem parse_failure_recovers_channel (request : Request) (p : MultiDict)
    (errors : list ErrorDetails) (id : string) (c : Client)
    (raw : option AnyHttpUrl) :
  decoded request = Some p ->
  AuthorizationRequest.model_validate lib p = Raise (ValidationError errors) ->
  get "client_id" p = Some (Str id) ->
  id <> EmptyString ->
  get_client provider id = Return (Some c) ->
  raw_candidate p raw ->
  let error_resp :=
    ErrorResponse.mk (classify errors) (stringify_pydantic_error lib errors)
      None (best_effort_extract_string "state" (Some p)) in
  authorization_handler lib provider request
  = Return match validate_redirect_uri raw c with
           | Return uri =>
               RedirectResponse
                 (construct_redirect_uri lib uri
                    (ErrorResponse.model_dump error_resp))
                 302 [("Cache-Control", "no-store")]
           | Raise _ =>
               PydanticJSONResponse 400 error_resp
                 [("Cache-Control", "no-store")]
           end.
Proof.
  intros Hp Hraise Hid Hne Hc Hraw error_resp.
  unfold authorization_handler.
  rewrite handler_run_caught,
    (body_parse_failure lib provider request p errors Hp Hraise),
    error_response_eq.
  cbv zeta.
  assert (recovered_slot true (parsed p) = Return (Loaded c)) as ->.
  { unfold recovered_slot, parsed, best_effort_extract_string. simpl.
    rewrite Hid.
    destruct (String.eqb id EmptyString) eqn:Hempty.
    - apply String.eqb_eq in Hempty. contradiction.
    - now rewrite Hc. }
  cbv zeta. unfold recovered_uri. simpl.
  rewrite (revalidate_candidate p raw c Hraw).
  assert (filled_state (parsed p)
          = best_effort_extract_string "state" (Some p)) as ->.
  { apply filled_state_parsed. }
  destruct (validate_redirect_uri raw c); reflexivity.
Qed.

(** X21. A request that does not parse and whose raw [client_id] is
    missing, not a string, empty, or unknown to the directory gets the
    direct 400 report, with the code chosen from the validation errors
    and the raw state, whatever its [redirect_uri] is. *)
Theorem parse_failure_without_client (request : Request) (p : MultiDict)
    (errors : list ErrorDetails) :
  decoded request = Some p ->
  AuthorizationRequest.model_validate lib p = Raise (ValidationError errors) ->
  best_effort_extract_string "client_id" (Some p) = None
  \/ best_effort_extract_string "client_id" (Some p) = Some EmptyString
  \/ (exists id, best_effort_extract_string "client_id" (Some p) = Some id
                 /\ get_client provider id = Return None) ->
  authorization_handler lib provider request
  = Return (PydanticJSONResponse 400
              (ErrorResponse.mk (classify errors)
                 (stringify_pydantic_error lib errors) None
                 (best_effort_extract_string "state" (Some p)))
              [("Cache-Control", "no-store")]).
Proof.
  intros Hp Hraise Hclient.
  unfold authorization_handler.
  rewrite handler_run_caught,
    (body_parse_failure lib provider request p errors Hp Hraise),
    error_response_eq.
  assert (recovered_slot true (parsed p) = Return Unset
          \/ recovered_slot true (parsed p) = Return Blank) as Hslot.
  { unfold recovered_slot, parsed. cbn [client params].
    destruct Hclient as [H | [H | (id & H & Hnone)]]; rewrite H; auto.
    destruct (String.eqb id EmptyString); [auto|].
    rewrite Hnone. auto. }
  assert (filled_state (parsed p)
          = best_effort_extract_string "state" (Some p)) as Hstate.
  { apply filled_state_parsed. }
  destruct Hslot as [-> | ->]; cbv zeta; unfold recovered_uri, report; simpl;
    rewrite Hstate; reflexivity.
Qed.



(** X23. Once the client is known and the redirect URI has validated,
    whether it was given or selected, a scope that does not validate is
    reported as [invalid_scope] by redirect to that URI, with the
    validator's message and the request's state. *)
Theorem scope_failure_redirects (request : Request) (p : MultiDict)
    (req : AuthorizationRequest.t) (c : Client) (uri : AnyHttpUrl)
    (e : Exception) :
  decoded request = Some p ->
  AuthorizationRequest.model_validate lib p = Return req ->
  get_client provider (AuthorizationRequest.client_id req) = Return (Some c) ->
  validate_redirect_uri (AuthorizationRequest.redirect_uri req) c = Return uri ->
  validate_scope (AuthorizationRequest.scope req) c = Raise e ->
  exists message,
    e = InvalidRequestError message
    /\ authorization_handler lib provider request
       = Return (RedirectResponse
                   (construct_redirect_uri lib uri
                      (ErrorResponse.model_dump
                         (ErrorResponse.mk invalid_scope message None
                            (AuthorizationRequest.state req))))
                   302 [("Cache-Control", "no-store")]).
Proof.
  intros Hp Hreq Hc Hval Hscope.
  destruct (model_validate_fields lib p req Hreq) as (_ & _ & Hstate & _).
  destruct (validate_scope_raises _ _ _ Hscope) as [message ->].
  exists message. split; [reflexivity|].
  apply (handler_of_body lib provider) with (s := verified p req c uri).
  rewrite (body_scope_failure lib provider request p req c uri message
             Hp Hreq Hc Hval Hscope).
  rewrite error_response_settled.
  - reflexivity.
  - apply load_client_keeps. left. discriminate.
  - apply load_redirect_uri_keeps. left. discriminate.
  - exact Hstate.
Qed.

End ReportingProperties.

(** * Further properties of the revocation handler and of the redirect builder *)

(** The hook, when one is configured, returns on this call. *)
Definition hook_returns {RevocationRequest Store : Type}
    (hook : option (Client -> RevocationRequest -> Store
                    -> Result unit * Store))
    (c : Client) (request : RevocationRequest) (kept : Store) : Prop :=
  match hook with
  | Some revoke => exists done, fst (revoke c request kept) = Return done
  | None => True
  end.

(** X24. The store and the hook weigh on the outcome of the revocation
    handler only through an exception of the hook.  Two deployments with
    the same parser and the same authenticator, whatever their stores and
    their hooks, give the same body the same response or the same error,
    provided that the hook of each, if it has one, returns when called on
    the authenticated client and the parsed request; and then a token the
    store does not hold is answered as one it holds. *)
Theorem revocation_outcome_ignores_store (RevocationRequest : Type)
    (model_validate_json : string -> Result RevocationRequest)
    (str_of_errors : list ErrorDetails -> string)
    (client_authenticator : RevocationRequest -> Result Client)
    (Store1 Store2 : Type)
    (hook1 : option (Client -> RevocationRequest -> Store1
                     -> Result unit * Store1))
    (hook2 : option (Client -> RevocationRequest -> Store2
                     -> Result unit * Store2))
    (body : string) (w1 : World RevocationRequest Store1)
    (w2 : World RevocationRequest Store2) :
  (forall request c,
      model_validate_json body = Return request ->
      client_authenticator request = Return c ->
      hook_returns hook1 c request (store w1)
      /\ hook_returns hook2 c request (store w2)) ->
  fst (revocation_handler model_validate_json str_of_errors
         client_authenticator hook1 body w1)
  = fst (revocation_handler model_validate_json str_of_errors
           client_authenticator hook2 body w2).
Proof.
  intros Hhooks.
  unfold revocation_handler, call_authenticator, call_revoke_token.
  destruct (model_validate_json body) as [request|e] eqn:Hparse.
  - destruct (client_authenticator request) as [c|e] eqn:Hauth; [|reflexivity].
    destruct (Hhooks request c eq_refl Hauth) as [H1 H2].
    unfold hook_returns in H1, H2. simpl.
    destruct hook1 as [revoke1|], hook2 as [revoke2|];
      try destruct (revoke1 c request (store w1)) as [[[]|e1] kept1];
      try destruct (revoke2 c request (store w2)) as [[[]|e2] kept2];
      simpl in *; try reflexivity;
      try (destruct H1; discriminate); destruct H2; discriminate.
  - destruct e; reflexivity.
Qed.

Lemma eqb_append_ampersand (a b : string) :
  String.eqb (a ++ "&" ++ b) EmptyString = false.
Proof. destruct a; reflexivity. Qed.

(** X25. [create_error_redirect] touches the query only, and error
    parameters accumulate behind what the query already holds: after two
    calls, the URL has its original scheme, host, path, parameters and
    fragment, and its query is the original one, when there was one,
    followed by the first and then the second encoded report, each
    introduced by one ampersand.  The URL reader is assumed to read back
    the two URLs that are built. *)
Theorem create_error_redirect_accumulates (url : UrlLib) (redirect_uri : string)
    (first second : ErrorArgument) :
  let parsed := urlparse url redirect_uri in
  let encoded1 := urlencode url (error_query_params first) in
  let encoded2 := urlencode url (error_query_params second) in
  let query1 :=
    if String.eqb (ParseResult.query parsed) EmptyString then encoded1
    else ParseResult.query parsed ++ "&" ++ encoded1 in
  let once := ParseResult.replace_query parsed query1 in
  let twice := ParseResult.replace_query parsed (query1 ++ "&" ++ encoded2) in
  encoded1 <> EmptyString ->
  urlparse url (urlunparse url once) = once ->
  urlparse url (urlunparse url twice) = twice ->
  urlparse url
    (create_error_redirect url
       (create_error_redirect url redirect_uri first) second)
  = twice.
Proof.
  intros parsed encoded1 encoded2 query1 once twice Hne Honce Htwice.
  unfold create_error_redirect.
  fold parsed. fold encoded1. fold encoded2. fold query1. fold once.
  rewrite Honce. unfold once at 1. simpl.
  assert (String.eqb query1 EmptyString = false) as ->.
  { unfold query1.
    destruct (String.eqb (ParseResult.query parsed) EmptyString).
    - now apply String.eqb_neq.
    - apply eqb_append_ampersand. }
  exact Htwice.
Qed.

(** * The further properties on the concrete deployment *)

Lemma validate_scope_names_first_rejected_witness :
  exists before rejected after,
    split space "read exec" = (before ++ rejected :: after)%list
    /\ (forall t, In t before ->
                  In t (OAuthClientInformationFull.allowed_scopes Demo.app))
    /\ ~ In rejected (OAuthClientInformationFull.allowed_scopes Demo.app)
    /\ InvalidRequestError "Client was not registered with scope exec"
       = InvalidRequestError
           ("Client was not registered with scope " ++ rejected).
Proof.
  apply (validate_scope_names_first_rejected "read exec" Demo.app).
  reflexivity.
Defined.

Lemma validate_scope_join_witness :
  Some "write read write" = Some (String.concat " " ["write"; "read"; "write"]).
Proof.
  apply (validate_scope_join (Some "write read write") Demo.app).
  reflexivity.
Defined.

Lemma registered_scope_accepted_witness :
  validate_scope (Some "read write") Demo.app
  = Return (Some (split space "read write"))
  /\ OAuthClientInformationFull.validate_scope Demo.app (Some "read write")
     = Return (Some (split space "read write")).
Proof.
  apply (registered_scope_accepted Demo.app "read write"). reflexivity.
Defined.

Lemma stray_space_rejected_witness :
  validate_scope (Some (" " ++ "read")) Demo.app
  = Raise (InvalidRequestError "Client was not registered with scope ")
  /\ (exists e, validate_scope (Some ("read" ++ " ")) Demo.app = Raise e)
  /\ (exists e, validate_scope (Some ("read" ++ "  " ++ "write")) Demo.app
                = Raise e).
Proof.
  apply (stray_space_rejected Demo.app "read" "write").
  simpl. intros [H|[H|[]]]; discriminate.
Defined.

Lemma validate_redirect_uri_again_witness :
  validate_redirect_uri (Some "https://a.example/cb") Demo.app
  = Return "https://a.example/cb".
Proof.
  apply (validate_redirect_uri_again None Demo.app "https://a.example/cb").
  reflexivity.
Defined.

Lemma parsed_request_invariants_witness :
  AuthorizationRequest.response_type Demo.good_fields = "code"
  /\ get "response_type" (query_params Demo.good) = Some (Str "code")
  /\ AuthorizationRequest.code_challenge_method Demo.good_fields = "S256"
  /\ (get "code_challenge_method" (query_params Demo.good) = Some (Str "S256")
      \/ get "code_challenge_method" (query_params Demo.good) = None)
  /\ get "client_id" (query_params Demo.good)
     = Some (Str (AuthorizationRequest.client_id Demo.good_fields))
  /\ get "code_challenge" (query_params Demo.good)
     = Some (Str (AuthorizationRequest.code_challenge Demo.good_fields)).
Proof.
  apply (parsed_request_invariants Demo.lib (query_params Demo.good)
           Demo.good_fields).
  reflexivity.
Defined.

Lemma validation_errors_shape_witness :
  exists errors,
    ValidationError [mkErrorDetails "response_type" missing]
    = ValidationError errors
    /\ errors <> []
    /\ NoDup (map loc errors)
    /\ forall entry, In entry errors -> In (loc entry) field_names.
Proof.
  apply (validation_errors_shape Demo.lib (query_params Demo.no_response_type)).
  reflexivity.
Defined.

Lemma model_dump_injective_witness :
  ErrorResponse.mk invalid_scope "no" None (Some "s1")
  = ErrorResponse.mk invalid_scope ("n" ++ "o") None (Some "s1").
Proof.
  apply model_dump_injective. reflexivity.
Defined.

Lemma error_response_keeps_context_witness :
  let s := mkLocals (Some "s1") None Unset (Some (query_params Demo.bad_scope)) in
  let s' := mkLocals (Some "s1") (Some "https://a.example/cb") (Loaded Demo.app)
              (Some (query_params Demo.bad_scope)) in
  params s' = params s
  /\ (forall x, state s = Some x -> state s' = Some x)
  /\ (forall uri, redirect_uri s = Some uri -> redirect_uri s' = Some uri)
  /\ (forall c, client s = Loaded c -> client s' = Loaded c).
Proof.
  intros s s'.
  apply (error_response_keeps_context Demo.lib Demo.provider access_denied
           "no" true s s'
           (Return (RedirectResponse
                      "https://a.example/cb?error=access_denied&error_description=no&state=s1"
                      302 [("Cache-Control", "no-store")]))).
  reflexivity.
Defined.


Lemma error_response_without_client_witness :
  let s := mkLocals None None Unset (Some (query_params Demo.bad_scope)) in
  exists s',
    error_response Demo.lib Demo.provider invalid_request "no" false s
    = (Return (PydanticJSONResponse 400
                 (ErrorResponse.mk invalid_request "no" None (filled_state s))
                 [("Cache-Control", "no-store")]),
       s')
    /\ client s' = client s.
Proof.
  intros s.
  apply (error_response_without_client Demo.lib Demo.provider invalid_request
           "no" false s).
  left. split; reflexivity.
Defined.

Lemma responses_are_not_stored_witness :
  (exists target,
      Demo.bad_scope_response
      = RedirectResponse target 302 [("Cache-Control", "no-store")])
  \/ (exists error_resp,
         Demo.bad_scope_response
         = PydanticJSONResponse 400 error_resp [("Cache-Control", "no-store")]).
Proof.
  apply (responses_are_not_stored Demo.lib Demo.provider Demo.bad_scope).
  reflexivity.
Defined.

Lemma delegation_redirects_to_provider_answer_witness :
  authorization_handler Demo.lib Demo.provider Demo.good
  = Return (RedirectResponse "https://as.example/consent" 302
              [("Cache-Control", "no-store")])
  /\ authorization_handler Demo.lib Demo.wide_provider Demo.good
     = Return (RedirectResponse
                 (construct_redirect_uri Demo.lib "https://a.example/cb"
                    (ErrorResponse.model_dump
                       (ErrorResponse.mk server_error
                          "An unexpected error occurred" None (Some "s1"))))
                 302 [("Cache-Control", "no-store")]).
Proof.
  split.
  - exact (delegation_redirects_to_provider_answer Demo.lib Demo.provider
             Demo.good (query_params Demo.good) Demo.good_fields Demo.app
             "https://a.example/cb" (Some ["write"; "read"])
             "https://as.example/consent"
             eq_refl eq_refl eq_refl eq_refl eq_refl eq_refl).
  - exact (delegation_redirects_to_provider_answer Demo.lib Demo.wide_provider
             Demo.good (query_params Demo.good) Demo.good_fields Demo.app
             "https://a.example/cb" (Some ["write"; "read"])
             Demo.wide_answer
             eq_refl eq_refl eq_refl eq_refl eq_refl eq_refl).
Defined.

Lemma provider_failure_redirects_witness :
  authorization_handler Demo.lib Demo.failing_provider Demo.good
  = Return (RedirectResponse
              (construct_redirect_uri Demo.lib "https://a.example/cb"
                 (ErrorResponse.model_dump
                    (ErrorResponse.mk server_error
                       "An unexpected error occurred" None (Some "s1"))))
              302 [("Cache-Control", "no-store")]).
Proof.
  apply (provider_failure_redirects Demo.lib Demo.failing_provider
           Demo.good (query_params Demo.good) Demo.good_fields Demo.app
           "https://a.example/cb" (Some ["write"; "read"])
           (OtherException "storage unavailable"));
    reflexivity.
Defined.

Lemma undecodable_form_reported_witness :
  authorization_handler Demo.lib Demo.provider Demo.undecodable
  = Return (PydanticJSONResponse 400
              (ErrorResponse.mk server_error "An unexpected error occurred"
                 None None)
              [("Cache-Control", "no-store")]).
Proof.
  apply (undecodable_form_reported Demo.lib Demo.provider Demo.undecodable).
  reflexivity.
Defined.

Lemma handler_reads_decoded_parameters_witness :
  authorization_handler Demo.lib Demo.provider Demo.good
  = authorization_handler Demo.lib Demo.provider
      (mkRequest "POST" [("state", Str "from the query")]
         (Return (query_params Demo.good))).
Proof.
  apply (handler_reads_decoded_parameters Demo.lib Demo.provider Demo.good
           (mkRequest "POST" [("state", Str "from the query")]
              (Return (query_params Demo.good)))
           (query_params Demo.good));
    reflexivity.
Defined.

Lemma parse_failure_recovers_channel_witness :
  authorization_handler Demo.lib Demo.provider Demo.no_response_type
  = Return (RedirectResponse
              "https://a.example/cb?error=invalid_request&error_description=response_type&state=s1"
              302 [("Cache-Control", "no-store")]).
Proof.
  apply (parse_failure_recovers_channel Demo.lib Demo.provider
           Demo.no_response_type (query_params Demo.no_response_type)
           [mkErrorDetails "response_type" missing] "app" Demo.app None);
    try reflexivity.
  discriminate.
Defined.

Lemma parse_failure_without_client_witness :
  authorization_handler Demo.lib Demo.provider Demo.no_response_type_unknown
  = Return (PydanticJSONResponse 400
              (ErrorResponse.mk invalid_request "response_type" None None)
              [("Cache-Control", "no-store")]).
Proof.
  apply (parse_failure_without_client Demo.lib Demo.provider
           Demo.no_response_type_unknown
           (query_params Demo.no_response_type_unknown)
           [mkErrorDetails "response_type" missing]);
    try reflexivity.
  right. right. exists "nobody". split; reflexivity.
Defined.


Lemma scope_failure_redirects_witness :
  exists message,
    InvalidRequestError "Client was not registered with scope exec"
    = InvalidRequestError message
    /\ authorization_handler Demo.lib Demo.provider Demo.bad_scope
       = Return (RedirectResponse
                   (construct_redirect_uri Demo.lib "https://a.example/cb"
                      (ErrorResponse.model_dump
                         (ErrorResponse.mk invalid_scope message None
                            (Some "s1"))))
                   302 [("Cache-Control", "no-store")]).
Proof.
  apply (scope_failure_redirects Demo.lib Demo.provider Demo.bad_scope
           (query_params Demo.bad_scope) Demo.bad_scope_fields Demo.app
           "https://a.example/cb");
    reflexivity.
Defined.

Lemma create_error_redirect_accumulates_witness :
  urlparse Demo.url
    (create_error_redirect Demo.url
       (create_error_redirect Demo.url "https://a.example/cb?x=1"
          (AnOAuthError "access_denied" "no"))
       AnotherException)
  = ParseResult.mk EmptyString EmptyString "https://a.example/cb" EmptyString
      "x=1&error=access_denied&error_description=no&error=server_error&error_description=An unknown error occurred"
      EmptyString.
Proof.
  apply (create_error_redirect_accumulates Demo.url "https://a.example/cb?x=1"
           (AnOAuthError "access_denied" "no") AnotherException);
    try reflexivity.
  discriminate.
Defined.

(** X24 on a token the store does not hold, dropped by a lenient hook, and
    the same token held by the store of a hook that refuses unknown
    tokens: the two answers are the same. *)
Lemma revocation_outcome_ignores_store_witness :
  fst (revocation_handler Demo.model_validate_json
         (fun errors => String.concat ", " (map loc errors))
         Demo.client_authenticator (Some Demo.revoke_token)
         "app:s3cret:unknown-token" Demo.world)
  = fst (revocation_handler Demo.model_validate_json
           (fun errors => String.concat ", " (map loc errors))
           Demo.client_authenticator (Some Demo.strict_revoke_token)
           "app:s3cret:unknown-token" (mkWorld ["unknown-token"] [])).
Proof.
  apply (revocation_outcome_ignores_store Demo.RevocationRequest
           Demo.model_validate_json
           (fun errors => String.concat ", " (map loc errors))
           Demo.client_authenticator (list string) (list string)
           (Some Demo.revoke_token) (Some Demo.strict_revoke_token)
           "app:s3cret:unknown-token" Demo.world
           (mkWorld ["unknown-token"] [])).
  intros request c Hreq Hc. vm_compute in Hreq. injection Hreq as <-.
  split; exists tt; reflexivity.
Defined.
